(** * django-mongoadmin: permission reconciliation and admin-site substitution

    A shallow embedding of

    - [mongoadmin/management/__init__.py]: [get_mongo_models],
      [get_default_permissions] and the post-migrate handler
      [create_permissions];
    - [mongoadmin/__init__.py]: the import-time substitution of Django's
      default admin site.

    Python integers are [Z], text is [string] (its [length] is Python's
    [len]), the relational tables are lists of rows in insertion order, and
    the handler runs in a small monad that threads the database, records the
    calls made to the framework and can leave early, by [return] or by
    raising [ValidationError]. *)

From Stdlib Require Import List String Ascii ZArith Bool Lia.
Import ListNotations.

Local Open Scope string_scope.
Local Open Scope Z_scope.
Local Open Scope list_scope.

(** ** Data model *)

(** [model._meta], as far as the handler reads it. *)
Record Options := mkOptions {
  app_label : string;
  model_name : string;
  verbose_name : string;
  verbose_name_raw : string
}.

(** A class registered with the admin site: a key of [site._registry].
    [isinstance_TopLevelDocumentMetaclass] is the value of
    [isinstance(model, TopLevelDocumentMetaclass)]. *)
Record Model := mkModel {
  isinstance_TopLevelDocumentMetaclass : bool;
  _meta : Options
}.

(** The administrative configuration a registry maps a class to. *)
Record ModelAdmin := mkModelAdmin { admin_class : string }.

(** [site._registry]: a dict, kept as the list of its items in iteration
    order. *)
Definition Registry := list (Model * ModelAdmin).

Definition keys (registry : Registry) : list Model := map fst registry.

Module ContentType.
(** A row of the content-type table. *)
Record t := mk { pk : Z; app_label : string; model : string }.
End ContentType.

Module Permission.
(** A row of the permission table. *)
Record row := mkRow { content_type_id : Z; row_codename : string; row_name : string }.

(** An unsaved [Permission(codename=..., name=..., content_type=...)]. *)
Record t := mk { codename : string; name : string; content_type : ContentType.t }.

Definition to_row (perm : t) : row :=
  {| content_type_id := ContentType.pk (content_type perm);
     row_codename := codename perm;
     row_name := name perm |}.
End Permission.

(** The database behind the alias [using]. *)
Record DB := mkDB {
  content_types : list ContentType.t;
  permissions : list Permission.row
}.

(** [Permission._meta.get_field('name').max_length]. *)
Record PermissionModel := mkPermissionModel { max_length : Z }.

Record AppConfig := mkAppConfig {
  (** the models module of the application, [None] when it has none *)
  models_module : option string
}.

(** What one call of the handler is given and what it reads from the
    process: its arguments, the outcome of [apps.get_model('auth',
    'Permission')] ([None] for [LookupError]), the answer of
    [router.allow_migrate_model(using, Permission)] and [site._registry]. *)
Record Env := mkEnv {
  app_config : AppConfig;
  verbosity : Z;
  auth_Permission : option PermissionModel;
  allow_migrate_model : bool;
  site_registry : Registry
}.

(** [exceptions.ValidationError], by the place that raises it, with the
    values its message is formatted from. *)
Inductive ValidationError :=
| VerboseNameTooLong (ctype : ContentType.t) (verbose_name_max_length : Z)
| PermissionNameTooLong (perm : Permission.t) (permission_name_max_length : Z).

(** Calls to the framework, in the order they are made. *)
Inductive Event :=
| GetModel                                     (* apps.get_model('auth', 'Permission') *)
| AllowMigrateModel                            (* router.allow_migrate_model(using, Permission) *)
| GetForModel (klass : Model)                  (* ContentType.objects.db_manager(using).get_for_model(klass) *)
| FilterPermissions (ctypes : list ContentType.t) (* Permission.objects.using(using).filter(content_type__in=ctypes) *)
| BulkCreate (objs : list Permission.t)        (* Permission.objects.using(using).bulk_create(objs) *)
| Print (perm : Permission.t).                 (* print("Adding permission '%s'" % perm) *)

(** ** The monad of the handler *)

(** How a computation ends early. *)
Inductive Exit :=
| Return
| Raise (e : ValidationError).

Record Run (A : Type) := mkRun {
  value : Exit + A;
  final : DB;
  events : list Event
}.
Arguments mkRun {A}.
Arguments value {A}.
Arguments final {A}.
Arguments events {A}.

Definition M (A : Type) : Type := DB -> Run A.

Definition ret {A} (a : A) : M A :=
  fun db => mkRun (inr a) db [].

Definition bind {A B} (m : M A) (k : A -> M B) : M B :=
  fun db =>
    let r := m db in
    match value r with
    | inl x => mkRun (inl x) (final r) (events r)
    | inr a => let r' := k a (final r) in
               mkRun (value r') (final r') (events r ++ events r')
    end.

Definition exit {A} (x : Exit) : M A :=
  fun db => mkRun (inl x) db [].

Definition emit (e : Event) : M unit :=
  fun db => mkRun (inr tt) db [e].

Declare Scope handler_scope.
Delimit Scope handler_scope with handler.
Notation "x <- m ;; k" := (bind m (fun x => k))
  (at level 100, m at next level, right associativity) : handler_scope.
Notation "' pat <- m ;; k" := (bind m (fun x => match x with pat => k end))
  (at level 100, pat pattern, m at next level, right associativity) : handler_scope.
Notation "m ;; k" := (bind m (fun _ => k))
  (at level 100, right associativity) : handler_scope.
Local Open Scope handler_scope.

(** ** The framework, as the handler uses it *)

(** Python's [len] of a text. *)
Definition len (s : string) : Z := Z.of_nat (String.length s).

(** [django.contrib.auth.get_permission_codename]:
    ['%s_%s' % (action, opts.model_name)]. *)
Definition get_permission_codename (action : string) (opts : Options) : string :=
  (action ++ "_" ++ model_name opts)%string.

Definition natural_key_eqb (label model : string) (ct : ContentType.t) : bool :=
  (ContentType.app_label ct =? label)%string && (ContentType.model ct =? model)%string.

(** [ContentType.objects.get(app_label=..., model=...)]. *)
Definition get_content_type (label model : string) (table : list ContentType.t)
  : option ContentType.t :=
  find (natural_key_eqb label model) table.

(** The key the database gives a new content-type row: above every key in
    use. *)
Definition next_pk (table : list ContentType.t) : Z :=
  1 + fold_right Z.max 0 (map ContentType.pk table).

(** [ContentType.objects.db_manager(using).get_for_model(klass)]: the row of
    [(app_label, model_name)], created when the table has none. The
    manager's cache is taken to agree with the table. *)
Definition get_for_model (klass : Model) : M ContentType.t :=
  fun db =>
    let opts := _meta klass in
    match get_content_type (app_label opts) (model_name opts) (content_types db) with
    | Some ct => mkRun (inr ct) db [GetForModel klass]
    | None =>
        let ct := ContentType.mk (next_pk (content_types db))
                                 (app_label opts) (model_name opts) in
        mkRun (inr ct)
              (mkDB (content_types db ++ [ct]) (permissions db))
              [GetForModel klass]
    end.

(** Membership of a content type in the Python set [ctypes]; model
    instances are equal when their primary keys are. *)
Definition ctype_in (ct : ContentType.t) (ctypes : list ContentType.t) : bool :=
  existsb (fun c => ContentType.pk c =? ContentType.pk ct) ctypes.

(** [ctypes.add(ctype)]. *)
Definition ctypes_add (ct : ContentType.t) (ctypes : list ContentType.t)
  : list ContentType.t :=
  if ctype_in ct ctypes then ctypes else ctypes ++ [ct].

Definition pk_in (id : Z) (ctypes : list ContentType.t) : bool :=
  existsb (fun c => ContentType.pk c =? id) ctypes.

(** The pairs [(content_type_id, codename)] of the rows whose content type
    is in [ctypes]. *)
Definition permissions_in (ctypes : list ContentType.t) (table : list Permission.row)
  : list (Z * string) :=
  map (fun r => (Permission.content_type_id r, Permission.row_codename r))
      (filter (fun r => pk_in (Permission.content_type_id r) ctypes) table).

(** [set(Permission.objects.using(using).filter(content_type__in=ctypes)
         .values_list("content_type", "codename"))]. *)
Definition filter_values_list (ctypes : list ContentType.t) : M (list (Z * string)) :=
  fun db =>
    mkRun (inr (permissions_in ctypes (permissions db))) db [FilterPermissions ctypes].

(** [(ct.pk, codename) in all_perms]. *)
Definition in_all_perms (key : Z * string) (all_perms : list (Z * string)) : bool :=
  existsb (fun k => (fst k =? fst key) && (snd k =? snd key)%string) all_perms.

(** [Permission.objects.using(using).bulk_create(perms)]: the rows are
    appended to the table. *)
Definition bulk_create (perms : list Permission.t) : M unit :=
  fun db =>
    mkRun (inr tt)
          (mkDB (content_types db) (permissions db ++ map Permission.to_row perms))
          [BulkCreate perms].

(** ** mongoadmin/management/__init__.py *)

Definition get_mongo_models (registry : Registry) : list Model :=
  filter isinstance_TopLevelDocumentMetaclass (keys registry).

Definition actions : list string := ["add"; "change"; "delete"].

Definition get_default_permissions (opts : Options) : list (string * string) :=
  map (fun action =>
         (get_permission_codename action opts,
          ("Can " ++ action ++ " " ++ verbose_name_raw opts)%string))
      actions.

(** The body of [for klass in get_mongo_models():], with the two
    accumulators [searched_perms] and [ctypes]. *)
Fixpoint for_klass (verbose_name_max_length : Z) (models : list Model)
    (searched_perms : list (ContentType.t * (string * string)))
    (ctypes : list ContentType.t)
  : M (list (ContentType.t * (string * string)) * list ContentType.t) :=
  match models with
  | [] => ret (searched_perms, ctypes)
  | klass :: rest =>
      ctype <- get_for_model klass ;;
      if len (verbose_name (_meta klass)) >? verbose_name_max_length
      then exit (Raise (VerboseNameTooLong ctype verbose_name_max_length))
      else for_klass verbose_name_max_length rest
             (searched_perms
                ++ map (fun perm => (ctype, perm)) (get_default_permissions (_meta klass)))
             (ctypes_add ctype ctypes)
  end.

(** [perms = [Permission(...) for ct, (codename, name) in searched_perms
              if (ct.pk, codename) not in all_perms]]. *)
Definition missing_perms (searched_perms : list (ContentType.t * (string * string)))
    (all_perms : list (Z * string)) : list Permission.t :=
  map (fun '(ct, (codename, name)) => Permission.mk codename name ct)
      (filter (fun '(ct, (codename, _)) =>
                 negb (in_all_perms (ContentType.pk ct, codename) all_perms))
              searched_perms).

(** [for perm in perms: if len(perm.name) > permission_name_max_length:
    raise ...]. *)
Fixpoint validate (permission_name_max_length : Z) (perms : list Permission.t) : M unit :=
  match perms with
  | [] => ret tt
  | perm :: rest =>
      if len (Permission.name perm) >? permission_name_max_length
      then exit (Raise (PermissionNameTooLong perm permission_name_max_length))
      else validate permission_name_max_length rest
  end.

(** [for perm in perms: print(...)]. *)
Fixpoint print_all (perms : list Permission.t) : M unit :=
  match perms with
  | [] => ret tt
  | perm :: rest => emit (Print perm) ;; print_all rest
  end.

Definition create_permissions (env : Env) : M unit :=
  match models_module (app_config env) with
  | None => exit Return
  | Some _ =>
      emit GetModel ;;
      match auth_Permission env with
      | None => exit Return
      | Some Permission =>
          emit AllowMigrateModel ;;
          if negb (allow_migrate_model env) then exit Return else
          let permission_name_max_length := max_length Permission in
          let verbose_name_max_length := permission_name_max_length - 11 in
          '(searched_perms, ctypes) <-
             for_klass verbose_name_max_length (get_mongo_models (site_registry env)) [] [] ;;
          all_perms <- filter_values_list ctypes ;;
          let perms := missing_perms searched_perms all_perms in
          validate permission_name_max_length perms ;;
          bulk_create perms ;;
          if verbosity env >=? 2 then print_all perms else ret tt
      end
  end.

(** ** mongoadmin/__init__.py *)

(** [distutils.version.StrictVersion]: the versions the pattern
    [^(\d+) \. (\d+) (\. (\d+))? ([ab](\d+))?$] accepts, and their order. *)
Module StrictVersion.

Record t := mk {
  version : Z * Z * Z;
  prerelease : option (ascii * Z)
}.

Definition is_digit (c : ascii) : bool :=
  ((48 <=? nat_of_ascii c) && (nat_of_ascii c <=? 57))%nat.

(** The longest prefix of digits, and what follows it. *)
Fixpoint span_digits (s : string) : string * string :=
  match s with
  | String c rest =>
      if is_digit c
      then let '(ds, tl) := span_digits rest in (String c ds, tl)
      else (EmptyString, s)
  | EmptyString => (EmptyString, EmptyString)
  end.

(** [int] of a run of digits. *)
Definition int (digits : string) : Z :=
  fold_left (fun acc c => 10 * acc + (Z.of_nat (nat_of_ascii c) - 48))
            (list_ascii_of_string digits) 0.

(** [\d+]. *)
Definition number (s : string) : option (Z * string) :=
  match span_digits s with
  | (EmptyString, _) => None
  | (ds, tl) => Some (int ds, tl)
  end.

(** [$]: the end of the text, or a newline that ends it. *)
Definition at_end (s : string) : bool :=
  match s with
  | EmptyString => true
  | String c EmptyString => (nat_of_ascii c =? 10)%nat
  | _ => false
  end.

(** [([ab](\d+))?$]. *)
Definition parse_prerelease (version : Z * Z * Z) (s : string) : option t :=
  match s with
  | String c tl =>
      if ((nat_of_ascii c =? 97) || (nat_of_ascii c =? 98))%nat
      then match number tl with
           | Some (n, tl') =>
               if at_end tl' then Some (mk version (Some (c, n))) else None
           | None => None
           end
      else if at_end s then Some (mk version None) else None
  | EmptyString => Some (mk version None)
  end.

(** [StrictVersion(vstring)]; [None] stands for the [ValueError] raised on
    a text the pattern rejects. *)
Definition parse (vstring : string) : option t :=
  match number vstring with
  | Some (major, String "." tl) =>
      match number tl with
      | Some (minor, String "." tl') =>
          match number tl' with
          | Some (patch, tl'') => parse_prerelease (major, minor, patch) tl''
          | None => None
          end
      | Some (minor, tl') => parse_prerelease (major, minor, 0) tl'
      | None => None
      end
  | _ => None
  end.

(** The order of the tuples [(major, minor, patch)]. *)
Definition compare_version (v w : Z * Z * Z) : comparison :=
  let '(a, b, c) := v in
  let '(a', b', c') := w in
  match a ?= a' with
  | Eq => match b ?= b' with
          | Eq => c ?= c'
          | o => o
          end
  | o => o
  end.

(** The order of the tuples [(letter, number)]. *)
Definition compare_prerelease (p q : ascii * Z) : comparison :=
  match (nat_of_ascii (fst p) ?= nat_of_ascii (fst q))%nat with
  | Eq => snd p ?= snd q
  | o => o
  end.

(** [StrictVersion._cmp]. *)
Definition _cmp (self other : t) : comparison :=
  match compare_version (version self) (version other) with
  | Eq =>
      match prerelease self, prerelease other with
      | None, None => Eq
      | Some _, None => Lt
      | None, Some _ => Gt
      | Some p, Some q => compare_prerelease p q
      end
  | o => o
  end.

(** [self < other]. *)
Definition lt (self other : t) : bool :=
  match _cmp self other with
  | Lt => true
  | _ => false
  end.

End StrictVersion.

Module Substitution.

(** The identity of a Python object. *)
Definition ref := nat.

(** An admin-site object: its attribute [_registry] refers to a dict. *)
Record AdminSite := mkAdminSite { _registry : ref }.

(** The part of the process the module touches: the dict objects, the
    admin-site objects, and the two module attributes that hold Django's
    default site. *)
Record Process := mkProcess {
  dicts : ref -> Registry;
  sites : ref -> AdminSite;
  django_contrib_admin_site : ref;
  django_contrib_admin_sites_site : ref
}.

Record Settings := mkSettings {
  (** [None] when the setting is not defined *)
  MONGOADMIN_OVERRIDE_ADMIN : option bool
}.

(** [getattr(settings, 'MONGOADMIN_OVERRIDE_ADMIN', False)]. *)
Definition override_admin (settings : Settings) : bool :=
  match MONGOADMIN_OVERRIDE_ADMIN settings with
  | Some flag => flag
  | None => false
  end.

(** [obj._registry = d]. *)
Definition set_registry (obj d : ref) (sites : ref -> AdminSite) : ref -> AdminSite :=
  fun r => if (r =? obj)%nat then mkAdminSite d else sites r.

Inductive Exception := ValueError (vstring : string).

(** The statements of the module after its imports; [site] is
    [mongoadmin.sites.site] and [django_version] is what
    [django.get_version()] returns. *)
Definition module_body (settings : Settings) (django_version : string) (site : ref)
    (p : Process) : Exception + Process :=
  if override_admin settings then
    match StrictVersion.parse django_version with
    | None => inl (ValueError django_version)
    | Some v =>
        match StrictVersion.parse "1.9" with
        | None => inl (ValueError "1.9")
        | Some threshold =>
            if StrictVersion.lt v threshold then
              let sites' :=
                set_registry site (_registry (sites p (django_contrib_admin_site p)))
                             (sites p) in
              inr (mkProcess (dicts p) sites' site (django_contrib_admin_sites_site p))
            else
              let sites' :=
                set_registry site (_registry (sites p (django_contrib_admin_sites_site p)))
                             (sites p) in
              inr (mkProcess (dicts p) sites' (django_contrib_admin_site p) site)
        end
    end
  else inr p.

(** The registry an admin-site object shows: the dict its [_registry]
    refers to. *)
Definition registry_of (p : Process) (obj : ref) : Registry :=
  dicts p (_registry (sites p obj)).

End Substitution.

(** ** Notions the statements are written with *)

(** The three silent-skip checks all pass. *)
Definition eligible (env : Env) : bool :=
  match models_module (app_config env), auth_Permission env with
  | Some _, Some _ => allow_migrate_model env
  | _, _ => false
  end.

(** The rows a sequence of calls hands to [bulk_create]. *)
Definition bulk_rows (evs : list Event) : list Permission.row :=
  flat_map (fun e => match e with
                     | BulkCreate objs => map Permission.to_row objs
                     | _ => []
                     end) evs.

(** The classes a sequence of calls looks the content type up for. *)
Definition lookups (evs : list Event) : list Model :=
  flat_map (fun e => match e with
                     | GetForModel klass => [klass]
                     | _ => []
                     end) evs.

(** The rows a run inserted. *)
Definition inserted {A} (r : Run A) : list Permission.row := bulk_rows (events r).

(** The classes a run processed, in order. *)
Definition processed {A} (r : Run A) : list Model := lookups (events r).

Definition is_eligibility_check (e : Event) : bool :=
  match e with
  | GetModel | AllowMigrateModel => true
  | _ => false
  end.

(** The content-type row of a class in a database, if it has one. *)
Definition ctype_of (db : DB) (klass : Model) : option ContentType.t :=
  get_content_type (app_label (_meta klass)) (model_name (_meta klass)) (content_types db).

(** The key of a permission row. *)
Definition row_key (r : Permission.row) : Z * string :=
  (Permission.content_type_id r, Permission.row_codename r).

Definition row_key_eqb (key : Z * string) (r : Permission.row) : bool :=
  (Permission.content_type_id r =? fst key) && (Permission.row_codename r =? snd key)%string.

(** The rows of a table under one key. *)
Definition rows_with (key : Z * string) (table : list Permission.row)
  : list Permission.row :=
  filter (row_key_eqb key) table.

(** [(app_label, model_name)], the key a content type is looked up by. *)
Definition natural_key (klass : Model) : string * string :=
  (app_label (_meta klass), model_name (_meta klass)).

(** The first check of the handler fails for the class. *)
Definition verbose_name_too_long (limit : Z) (klass : Model) : bool :=
  len (verbose_name (_meta klass)) >? limit.

(** The second check of the handler fails for the permission. *)
Definition name_too_long (limit : Z) (perm : Permission.t) : bool :=
  len (Permission.name perm) >? limit.

(** What the loop appends to [searched_perms] for a class, read off the
    content-type table. *)
Definition searched_for (db : DB) (klass : Model)
  : list (ContentType.t * (string * string)) :=
  match ctype_of db klass with
  | Some ct => map (fun perm => (ct, perm)) (get_default_permissions (_meta klass))
  | None => []
  end.

(** Primary keys identify content-type rows. *)
Definition pk_unique (db : DB) : Prop :=
  NoDup (map ContentType.pk (content_types db)).

(** The content-type table of [db'] is the one of [db] with rows added at
    its end. *)
Definition extends (db' db : DB) : Prop :=
  exists extra, content_types db' = content_types db ++ extra.

(** The entries of [searched_perms] under one key. *)
Definition searched_key_eqb (key : Z * string) (x : ContentType.t * (string * string)) : bool :=
  (ContentType.pk (fst x) =? fst key) && (fst (snd x) =? snd key)%string.

(** The row the handler inserts for an action on a class with content type
    [ct]. *)
Definition default_row (ct : ContentType.t) (action : string) (klass : Model)
  : Permission.row :=
  Permission.mkRow (ContentType.pk ct)
                   (get_permission_codename action (_meta klass))
                   ("Can " ++ action ++ " " ++ verbose_name_raw (_meta klass))%string.

(** The two module attributes that can hold Django's default admin site. *)
Inductive Path :=
| django_contrib_admin           (* django.contrib.admin.site *)
| django_contrib_admin_sites.    (* django.contrib.admin.sites.site *)

(** [StrictVersion('1.9')]. *)
Definition threshold : StrictVersion.t := StrictVersion.mk (1, 9, 0) None.

(** The attribute a version selects. *)
Definition path_for (v : StrictVersion.t) : Path :=
  if StrictVersion.lt v threshold then django_contrib_admin else django_contrib_admin_sites.

(** The object an attribute holds. *)
Definition default_site (path : Path) (p : Substitution.Process) : Substitution.ref :=
  match path with
  | django_contrib_admin => Substitution.django_contrib_admin_site p
  | django_contrib_admin_sites => Substitution.django_contrib_admin_sites_site p
  end.



(** The argument of each permission query of a sequence of calls. *)
Definition filter_calls (evs : list Event) : list (list ContentType.t) :=
  flat_map (fun e => match e with
                     | FilterPermissions ctypes => [ctypes]
                     | _ => []
                     end) evs.

(** The key a content-type row is looked up by. *)
Definition ct_natural_key (ct : ContentType.t) : string * string :=
  (ContentType.app_label ct, ContentType.model ct).

(** No two content-type rows share (app label, model). *)
Definition natural_key_unique (db : DB) : Prop :=
  NoDup (map ct_natural_key (content_types db)).

(** The three rows of a class, in the order of the actions. *)
Definition default_rows (ct : ContentType.t) (klass : Model) : list Permission.row :=
  map (fun action => default_row ct action klass) actions.

(** The rows of a class under the content type a database has for it. *)
Definition expected_rows (db : DB) (klass : Model) : list Permission.row :=
  match ctype_of db klass with
  | Some ct => default_rows ct klass
  | None => []
  end.

(** The characters a strict version number is written with: digits, the
    dot, the letters a and b, and a closing newline. *)
Definition version_char (c : ascii) : bool :=
  StrictVersion.is_digit c
  || (nat_of_ascii c =? 46)%nat || (nat_of_ascii c =? 97)%nat
  || (nat_of_ascii c =? 98)%nat || (nat_of_ascii c =? 10)%nat.

(** The version is before 1.9: a smaller (major, minor), or an alpha or
    beta of 1.9.0. *)
Definition before_1_9 (v : StrictVersion.t) : Prop :=
  let '(major, minor, patch) := StrictVersion.version v in
  major < 1
  \/ (major = 1 /\ minor < 9)
  \/ (major = 1 /\ minor = 9 /\ patch = 0 /\ StrictVersion.prerelease v <> None).

(** The same call at another verbosity. *)
Definition with_verbosity (v : Z) (env : Env) : Env :=
  mkEnv (app_config env) v (auth_Permission env) (allow_migrate_model env)
        (site_registry env).

(** ** Sample data *)

Module Sample.

(** A document model and a relational model registered side by side. *)
Definition Invoice : Model :=
  mkModel true (mkOptions "billing" "invoice" "invoice" "invoice").

Definition User : Model :=
  mkModel false (mkOptions "auth" "user" "user" "user").

(** A document model whose verbose name has 42 characters. *)
Definition Confirmation : Model :=
  mkModel true
    (mkOptions "billing" "confirmation"
               "international purchase order confirmation"
               "international purchase order confirmation").

Definition registry : Registry :=
  [(User, mkModelAdmin "UserAdmin"); (Invoice, mkModelAdmin "InvoiceAdmin")].

(** [Permission.name] with [max_length=50], as in Django 1.7. *)
Definition auth_Permission_50 : PermissionModel := mkPermissionModel 50.

Definition env : Env :=
  mkEnv (mkAppConfig (Some "billing.models")) 2 (Some auth_Permission_50) true registry.

(** The same call for an application without a models module. *)
Definition env_no_models : Env :=
  mkEnv (mkAppConfig None) 2 (Some auth_Permission_50) true registry.

(** The same call with [Confirmation] registered after [Invoice]. *)
Definition env_long : Env :=
  mkEnv (mkAppConfig (Some "billing.models")) 2 (Some auth_Permission_50) true
        (registry ++ [(Confirmation, mkModelAdmin "ConfirmationAdmin")]).

Definition env_long_no_models : Env :=
  mkEnv (mkAppConfig None) 2 (Some auth_Permission_50) true
        (registry ++ [(Confirmation, mkModelAdmin "ConfirmationAdmin")]).

(** A second class with the label and name of [Invoice], as a re-created
    class would be. *)
Definition InvoiceAgain : Model :=
  mkModel true (mkOptions "billing" "invoice" "invoice (old)" "invoice (old)").

Definition env_twice : Env :=
  mkEnv (mkAppConfig (Some "billing.models")) 2 (Some auth_Permission_50) true
        [(Invoice, mkModelAdmin "InvoiceAdmin"); (InvoiceAgain, mkModelAdmin "InvoiceAdmin")].

Definition empty : DB := mkDB [] [].

(** A database that already holds the content type of [Invoice] and its
    add permission under an older display name. *)
Definition stale : DB :=
  mkDB [ContentType.mk 1 "billing" "invoice"]
       [Permission.mkRow 1 "add_invoice" "Can add bill"].

(** A process in which Django's default site, object 0, has registered
    [User] in its dict, object 10, and mongoadmin's site, object 1, has
    its own dict, object 11, holding [Invoice]. *)
Definition process : Substitution.Process :=
  Substitution.mkProcess
    (fun d => match d with
              | 10%nat => [(User, mkModelAdmin "UserAdmin")]
              | 11%nat => [(Invoice, mkModelAdmin "InvoiceAdmin")]
              | _ => []
              end)
    (fun o => match o with
              | 0%nat => Substitution.mkAdminSite 10%nat
              | _ => Substitution.mkAdminSite 11%nat
              end)
    0%nat 0%nat.

Definition override_on : Substitution.Settings := Substitution.mkSettings (Some true).

Definition override_absent : Substitution.Settings := Substitution.mkSettings None.

(** A document model whose untranslated verbose name is longer than the
    verbose name the first check measures. *)
Definition Order : Model :=
  mkModel true
    (mkOptions "billing" "order" "order" "international purchase order confirmation").

Definition env_raw_long : Env :=
  mkEnv (mkAppConfig (Some "billing.models")) 2 (Some auth_Permission_50) true
        (registry ++ [(Order, mkModelAdmin "OrderAdmin")]).

(** A registry without document models. *)
Definition env_relational : Env :=
  mkEnv (mkAppConfig (Some "auth.models")) 2 (Some auth_Permission_50) true
        [(User, mkModelAdmin "UserAdmin")].

(** A database that holds the content type of [Order] and its three
    permissions, and the content type and permissions of a model that is no
    longer registered. *)
Definition reconciled : DB :=
  mkDB [ContentType.mk 1 "billing" "order"; ContentType.mk 2 "billing" "receipt"]
       [Permission.mkRow 1 "add_order" "Can add order";
        Permission.mkRow 1 "change_order" "Can change order";
        Permission.mkRow 1 "delete_order" "Can delete order";
        Permission.mkRow 2 "add_receipt" "Can add receipt"].

Definition env_order : Env :=
  mkEnv (mkAppConfig (Some "billing.models")) 2 (Some auth_Permission_50) true
        [(Order, mkModelAdmin "OrderAdmin")].


End Sample.

(** * Properties *)

(** ** Steps of the monad *)

Lemma validate_run limit perms db :
  validate limit perms db =
  match find (name_too_long limit) perms with
  | Some perm => mkRun (inl (Raise (PermissionNameTooLong perm limit))) db []
  | None => mkRun (inr tt) db []
  end.
Proof.
  induction perms as [|perm rest IH]; simpl; [reflexivity|].
  unfold name_too_long at 1.
  destruct (len (Permission.name perm) >? limit); [reflexivity | exact IH].
Qed.

Lemma print_all_run perms db :
  print_all perms db = mkRun (inr tt) db (map Print perms).
Proof.
  induction perms as [|perm rest IH]; simpl; [reflexivity|].
  unfold bind, emit; simpl. rewrite IH. reflexivity.
Qed.

(** The handler on an environment that passes the three checks, as one case
    analysis on the loop and on the second length check. *)
Lemma create_permissions_eligible env db mm P :
  models_module (app_config env) = Some mm ->
  auth_Permission env = Some P ->
  allow_migrate_model env = true ->
  create_permissions env db =
  let r1 := for_klass (max_length P - 11) (get_mongo_models (site_registry env)) [] [] db in
  match value r1 with
  | inl x => mkRun (inl x) (final r1) (GetModel :: AllowMigrateModel :: events r1)
  | inr (searched_perms, ctypes) =>
      let perms :=
        missing_perms searched_perms (permissions_in ctypes (permissions (final r1))) in
      match find (name_too_long (max_length P)) perms with
      | Some perm =>
          mkRun (inl (Raise (PermissionNameTooLong perm (max_length P))))
                (final r1)
                (GetModel :: AllowMigrateModel :: events r1 ++ [FilterPermissions ctypes])
      | None =>
          mkRun (inr tt)
                (mkDB (content_types (final r1))
                      (permissions (final r1) ++ map Permission.to_row perms))
                (GetModel :: AllowMigrateModel :: events r1
                   ++ FilterPermissions ctypes :: BulkCreate perms
                   :: (if verbosity env >=? 2 then map Print perms else []))
      end
  end.
Proof.
  intros Hmm HP Hallow. unfold create_permissions.
  rewrite Hmm, HP, Hallow.
  unfold bind, emit, exit, filter_values_list, bulk_create; simpl.
  destruct (for_klass _ _ _ _ db) as [v db1 ev1]; simpl.
  destruct v as [x | [searched_perms ctypes]]; simpl; [reflexivity|].
  rewrite validate_run.
  destruct (find _ _) as [perm|]; simpl; [reflexivity|].
  destruct (verbosity env >=? 2).
  - rewrite print_all_run. reflexivity.
  - reflexivity.
Qed.

(** The handler on an environment that fails one of them. *)
Lemma create_permissions_ineligible env db :
  eligible env = false ->
  exists checks,
    create_permissions env db = mkRun (inl Return) db checks
    /\ (checks = [] \/ checks = [GetModel] \/ checks = [GetModel; AllowMigrateModel]).
Proof.
  unfold eligible, create_permissions. intros H.
  destruct (models_module (app_config env)).
  - destruct (auth_Permission env).
    + rewrite H. exists [GetModel; AllowMigrateModel]. auto.
    + exists [GetModel]. auto.
  - exists []. auto.
Qed.

Lemma eligible_inv env :
  eligible env = true ->
  exists mm P,
    models_module (app_config env) = Some mm
    /\ auth_Permission env = Some P
    /\ allow_migrate_model env = true.
Proof.
  unfold eligible. destruct (models_module _) as [mm|]; [|discriminate].
  destruct (auth_Permission env) as [P|]; [|discriminate].
  intros H. exists mm, P. auto.
Qed.

(** ** The content-type table *)

Lemma find_app_some {A} (f : A -> bool) l l' x :
  find f l = Some x -> find f (l ++ l') = Some x.
Proof.
  induction l as [|a l IH]; simpl; [discriminate|].
  destruct (f a); auto.
Qed.

Lemma find_app_none {A} (f : A -> bool) l l' :
  find f l = None -> find f (l ++ l') = find f l'.
Proof.
  induction l as [|a l IH]; simpl; [reflexivity|].
  destruct (f a); [discriminate | exact IH].
Qed.

Lemma extends_refl db : extends db db.
Proof. exists []. now rewrite app_nil_r. Qed.

Lemma extends_trans db1 db2 db3 :
  extends db2 db1 -> extends db3 db2 -> extends db3 db1.
Proof.
  intros [e1 H1] [e2 H2]. exists (e1 ++ e2). now rewrite H2, H1, app_assoc.
Qed.

Lemma ctype_of_extends db db' klass ct :
  extends db' db -> ctype_of db klass = Some ct -> ctype_of db' klass = Some ct.
Proof.
  intros [extra H] Hct. unfold ctype_of, get_content_type in *.
  rewrite H. now apply find_app_some.
Qed.

Lemma ctype_of_natural_key db klass ct :
  ctype_of db klass = Some ct ->
  In ct (content_types db)
  /\ ContentType.app_label ct = app_label (_meta klass)
  /\ ContentType.model ct = model_name (_meta klass).
Proof.
  unfold ctype_of, get_content_type. intros H.
  apply find_some in H. destruct H as [Hin Hk].
  unfold natural_key_eqb in Hk. apply andb_true_iff in Hk.
  destruct Hk as [Ha Hm]. apply String.eqb_eq in Ha, Hm. auto.
Qed.

Lemma get_for_model_found klass db ct :
  ctype_of db klass = Some ct ->
  get_for_model klass db = mkRun (inr ct) db [GetForModel klass].
Proof.
  unfold ctype_of, get_for_model. intros H. now rewrite H.
Qed.

Lemma get_for_model_run klass db :
  exists ct,
    value (get_for_model klass db) = inr ct
    /\ events (get_for_model klass db) = [GetForModel klass]
    /\ permissions (final (get_for_model klass db)) = permissions db
    /\ extends (final (get_for_model klass db)) db
    /\ ctype_of (final (get_for_model klass db)) klass = Some ct.
Proof.
  unfold get_for_model.
  destruct (get_content_type _ _ (content_types db)) as [ct|] eqn:Hget.
  - exists ct. simpl. repeat split; auto using extends_refl.
  - eexists. simpl. repeat split.
    + eexists. reflexivity.
    + unfold ctype_of, get_content_type in *. simpl.
      rewrite find_app_none by assumption. simpl.
      unfold natural_key_eqb. simpl. now rewrite !String.eqb_refl.
Qed.

(** One turn of the loop. *)
Lemma for_klass_cons limit klass rest searched_perms ctypes db :
  exists ct,
    value (get_for_model klass db) = inr ct
    /\ for_klass limit (klass :: rest) searched_perms ctypes db =
       if verbose_name_too_long limit klass
       then mkRun (inl (Raise (VerboseNameTooLong ct limit)))
                  (final (get_for_model klass db)) [GetForModel klass]
       else
         let r := for_klass limit rest
                    (searched_perms
                       ++ map (fun perm => (ct, perm)) (get_default_permissions (_meta klass)))
                    (ctypes_add ct ctypes)
                    (final (get_for_model klass db)) in
         mkRun (value r) (final r) (GetForModel klass :: events r).
Proof.
  destruct (get_for_model_run klass db) as (ct & Hv & Hev & _).
  exists ct. split; [assumption|].
  simpl. unfold bind. rewrite Hv, Hev. unfold verbose_name_too_long.
  destruct (len _ >? limit); reflexivity.
Qed.

(** The loop leaves the permission table alone and only appends to the
    content-type table. *)
Lemma for_klass_frame limit models : forall searched_perms ctypes db,
  permissions (final (for_klass limit models searched_perms ctypes db)) = permissions db
  /\ extends (final (for_klass limit models searched_perms ctypes db)) db.
Proof.
  induction models as [|klass rest IH]; intros sp cs db.
  - simpl. split; auto using extends_refl.
  - destruct (for_klass_cons limit klass rest sp cs db) as (ct & _ & ->).
    destruct (get_for_model_run klass db) as (_ & _ & _ & Hp & Hext & _).
    destruct (verbose_name_too_long limit klass); cbv zeta; cbn [final]; [auto|].
    destruct (IH (sp ++ map (fun perm => (ct, perm)) (get_default_permissions (_meta klass)))
                 (ctypes_add ct cs) (final (get_for_model klass db))) as [IHp IHe].
    split; [congruence | eauto using extends_trans].
Qed.

Lemma pk_in_add id ct ctypes :
  pk_in id (ctypes_add ct ctypes) = pk_in id ctypes || (ContentType.pk ct =? id).
Proof.
  unfold ctypes_add, ctype_in, pk_in.
  destruct (existsb (fun c => ContentType.pk c =? ContentType.pk ct) ctypes) eqn:Hin.
  - destruct (ContentType.pk ct =? id) eqn:Heq; [|now rewrite orb_false_r].
    apply Z.eqb_eq in Heq. subst id. now rewrite Hin.
  - rewrite existsb_app. simpl. now rewrite orb_false_r.
Qed.

(** ** The loop over the document models *)

Ltac loop_step limit klass rest sp cs db ct :=
  let Hv := fresh "Hv" in
  let Hct := fresh "Hct" in
  let Hp := fresh "Hperm" in
  let Hext := fresh "Hext" in
  let ct' := fresh "ct" in
  let Hv' := fresh "Hv" in
  destruct (for_klass_cons limit klass rest sp cs db) as (ct & Hv & ->);
  destruct (get_for_model_run klass db) as (ct' & Hv' & _ & Hp & Hext & Hct);
  rewrite Hv in Hv'; injection Hv' as <-.

(** A loop that runs to its end: every class passed the length check, was
    looked up exactly once and in order, and the accumulators hold what the
    final content-type table says. *)
Lemma for_klass_ok limit models : forall sp cs db sp' cs',
  value (for_klass limit models sp cs db) = inr (sp', cs') ->
  Forall (fun k => verbose_name_too_long limit k = false) models
  /\ events (for_klass limit models sp cs db) = map GetForModel models
  /\ sp' = sp ++ flat_map (searched_for (final (for_klass limit models sp cs db))) models
  /\ (forall k, In k models ->
        exists ct, ctype_of (final (for_klass limit models sp cs db)) k = Some ct
                   /\ pk_in (ContentType.pk ct) cs' = true)
  /\ (forall id, pk_in id cs = true -> pk_in id cs' = true).
Proof.
  induction models as [|klass rest IH]; intros sp cs db sp' cs'.
  - simpl. intros [= <- <-]. rewrite app_nil_r.
    repeat split; auto. intros k [].
  - loop_step limit klass rest sp cs db ct.
    destruct (verbose_name_too_long limit klass) eqn:Hlong;
      cbv zeta; cbn [value final events]; [discriminate|].
    intros Hval.
    set (sp1 := sp ++ map (fun perm => (ct, perm)) (get_default_permissions (_meta klass))) in *.
    set (cs1 := ctypes_add ct cs) in *.
    set (db1 := final (get_for_model klass db)) in *.
    destruct (IH sp1 cs1 db1 sp' cs' Hval) as (Hall & Hev & Hsp & Hin & Hmono).
    destruct (for_klass_frame limit rest sp1 cs1 db1) as [_ Hext1].
    pose proof (ctype_of_extends _ _ _ _ Hext1 Hct) as Hct1.
    assert (Hcs : forall id, pk_in id cs1 = pk_in id cs || (ContentType.pk ct =? id))
      by (intros; apply pk_in_add).
    repeat split.
    + constructor; assumption.
    + simpl. now rewrite Hev.
    + assert (Hs : searched_for (final (for_klass limit rest sp1 cs1 db1)) klass
                   = map (fun perm => (ct, perm)) (get_default_permissions (_meta klass)))
        by (unfold searched_for; now rewrite Hct1).
      rewrite Hsp. cbn [flat_map]. rewrite Hs. subst sp1.
      now rewrite <- app_assoc.
    + intros k [<- | Hk]; [|auto].
      exists ct. split; [assumption|]. apply Hmono. rewrite Hcs.
      rewrite Z.eqb_refl. apply orb_true_r.
    + intros id Hid. apply Hmono. rewrite Hcs, Hid. reflexivity.
Qed.

(** A loop that raises: it stopped at the first class whose verbose name is
    too long, after looking up every class up to and including that one. *)
Lemma for_klass_raise limit models : forall sp cs db x,
  value (for_klass limit models sp cs db) = inl x ->
  exists pre klass post ct,
    models = pre ++ klass :: post
    /\ Forall (fun k => verbose_name_too_long limit k = false) pre
    /\ verbose_name_too_long limit klass = true
    /\ x = Raise (VerboseNameTooLong ct limit)
    /\ ctype_of (final (for_klass limit models sp cs db)) klass = Some ct
    /\ events (for_klass limit models sp cs db) = map GetForModel (pre ++ [klass])
    /\ (forall k, In k (pre ++ [klass]) ->
          ctype_of (final (for_klass limit models sp cs db)) k <> None).
Proof.
  induction models as [|klass rest IH]; intros sp cs db x.
  - simpl. discriminate.
  - loop_step limit klass rest sp cs db ct.
    destruct (verbose_name_too_long limit klass) eqn:Hlong;
      cbv zeta; cbn [value final events].
    + intros [= <-]. exists [], klass, rest, ct. simpl.
      repeat split; auto.
      intros k [<- | []]. congruence.
    + intros Hval.
      set (sp1 := sp ++ map (fun perm => (ct, perm)) (get_default_permissions (_meta klass))) in *.
      set (cs1 := ctypes_add ct cs) in *.
      set (db1 := final (get_for_model klass db)) in *.
      destruct (IH sp1 cs1 db1 x Hval)
        as (pre & k & post & ct' & -> & Hpre & Hk & -> & Hctk & Hev & Hall).
      destruct (for_klass_frame limit (pre ++ k :: post) sp1 cs1 db1) as [_ Hext1].
      pose proof (ctype_of_extends _ _ _ _ Hext1 Hct) as Hct1.
      exists (klass :: pre), k, post, ct'. simpl.
      repeat split; auto.
      * now rewrite Hev.
      * intros m [<- | Hm]; [congruence | auto].
Qed.

(** Whatever the loop does, the only calls it makes are content-type
    lookups, for an initial segment of the classes. *)
Lemma for_klass_events limit models sp cs db :
  exists n, events (for_klass limit models sp cs db) = map GetForModel (firstn n models).
Proof.
  destruct (value (for_klass limit models sp cs db)) as [x | [sp' cs']] eqn:Hv.
  - destruct (for_klass_raise _ _ _ _ _ _ Hv)
      as (pre & k & post & ct & -> & _ & _ & _ & _ & Hev & _).
    exists (List.length (pre ++ [k])). rewrite Hev. f_equal.
    replace (pre ++ k :: post) with ((pre ++ [k]) ++ post) by now rewrite <- app_assoc.
    now rewrite firstn_app, Nat.sub_diag, firstn_all, firstn_O, app_nil_r.
  - destruct (for_klass_ok _ _ _ _ _ _ _ Hv) as (_ & Hev & _).
    exists (List.length models). now rewrite firstn_all.
Qed.

(** Run again on the table it left behind, the loop finds every row it
    needs, creates nothing and ends the same way. *)
Lemma for_klass_rerun limit models : forall sp cs db db2,
  content_types db2 = content_types (final (for_klass limit models sp cs db)) ->
  for_klass limit models sp cs db2 =
  mkRun (value (for_klass limit models sp cs db)) db2
        (events (for_klass limit models sp cs db)).
Proof.
  induction models as [|klass rest IH]; intros sp cs db db2.
  - reflexivity.
  - loop_step limit klass rest sp cs db ct.
    destruct (for_klass_cons limit klass rest sp cs db2) as (ct2 & Hv2 & ->).
    destruct (verbose_name_too_long limit klass) eqn:Hlong;
      cbv zeta; cbn [value final events]; intros Hsame.
    + assert (Hfound : ctype_of db2 klass = Some ct)
        by (unfold ctype_of in *; now rewrite Hsame).
      rewrite (get_for_model_found _ _ _ Hfound) in *.
      injection Hv2 as <-. reflexivity.
    + set (sp1 := sp ++ map (fun perm => (ct, perm)) (get_default_permissions (_meta klass))) in *.
      set (cs1 := ctypes_add ct cs) in *.
      set (db1 := final (get_for_model klass db)) in *.
      destruct (for_klass_frame limit rest sp1 cs1 db1) as [_ Hext1].
      assert (Hfound : ctype_of db2 klass = Some ct).
      { apply (ctype_of_extends db1); [|assumption].
        destruct Hext1 as [extra He]. exists extra. now rewrite Hsame. }
      rewrite (get_for_model_found _ _ _ Hfound) in *.
      injection Hv2 as <-. cbn [final].
      fold sp1 cs1. rewrite (IH sp1 cs1 db1 db2 Hsame). reflexivity.
Qed.

(** ** Reading the record of calls *)

Lemma bulk_rows_app evs evs' : bulk_rows (evs ++ evs') = bulk_rows evs ++ bulk_rows evs'.
Proof. apply flat_map_app. Qed.

Lemma bulk_rows_lookups models : bulk_rows (map GetForModel models) = [].
Proof. induction models; simpl; auto. Qed.

Lemma bulk_rows_prints perms : bulk_rows (map Print perms) = [].
Proof. induction perms; simpl; auto. Qed.

Lemma lookups_app evs evs' : lookups (evs ++ evs') = lookups evs ++ lookups evs'.
Proof. apply flat_map_app. Qed.

Lemma lookups_lookups models : lookups (map GetForModel models) = models.
Proof. induction models; simpl; congruence. Qed.


Lemma for_klass_inserts_nothing limit models sp cs db :
  bulk_rows (events (for_klass limit models sp cs db)) = [].
Proof.
  destruct (for_klass_events limit models sp cs db) as [n ->].
  apply bulk_rows_lookups.
Qed.

(** ** Membership in the Python sets *)

Lemma in_all_perms_iff key all_perms :
  in_all_perms key all_perms = true <-> In key all_perms.
Proof.
  unfold in_all_perms. rewrite existsb_exists. split.
  - intros ([id cn] & Hin & Heq). destruct key as [id' cn']. simpl in Heq.
    apply andb_true_iff in Heq. destruct Heq as [H1 H2].
    apply Z.eqb_eq in H1. apply String.eqb_eq in H2. now subst.
  - intros Hin. exists key. split; [assumption|].
    now rewrite Z.eqb_refl, String.eqb_refl.
Qed.

Lemma permissions_in_iff key ctypes table :
  In key (permissions_in ctypes table) <->
  exists r, In r table /\ row_key r = key /\ pk_in (fst key) ctypes = true.
Proof.
  unfold permissions_in. rewrite in_map_iff. split.
  - intros (r & <- & Hin). apply filter_In in Hin. destruct Hin as [Hin Hpk].
    exists r. auto.
  - intros (r & Hin & <- & Hpk). exists r. split; [reflexivity|].
    apply filter_In. auto.
Qed.

Lemma permissions_in_app ctypes table table' :
  permissions_in ctypes (table ++ table') =
  permissions_in ctypes table ++ permissions_in ctypes table'.
Proof. unfold permissions_in. now rewrite filter_app, map_app. Qed.

Lemma missing_perms_In perm searched_perms all_perms :
  In perm (missing_perms searched_perms all_perms) <->
  In (Permission.content_type perm, (Permission.codename perm, Permission.name perm))
     searched_perms
  /\ ~ In (ContentType.pk (Permission.content_type perm), Permission.codename perm) all_perms.
Proof.
  unfold missing_perms. rewrite in_map_iff. split.
  - intros ([ct [cn nm]] & <- & Hin). apply filter_In in Hin.
    destruct Hin as [Hin Hnot]. simpl. split; [assumption|].
    rewrite <- in_all_perms_iff. now destruct (in_all_perms _ _).
  - intros [Hin Hnot]. destruct perm as [cn nm ct]. simpl in *.
    exists (ct, (cn, nm)). split; [reflexivity|].
    apply filter_In. split; [assumption|].
    rewrite <- in_all_perms_iff in Hnot. now destruct (in_all_perms _ _).
Qed.

(** Every content type the loop pairs a permission with is in [ctypes]. *)
Lemma searched_in_ctypes limit models db sp cs :
  value (for_klass limit models [] [] db) = inr (sp, cs) ->
  forall ct perm, In (ct, perm) sp -> pk_in (ContentType.pk ct) cs = true.
Proof.
  intros Hv ct perm Hin.
  destruct (for_klass_ok _ _ _ _ _ _ _ Hv) as (_ & _ & -> & Hcs & _).
  simpl in Hin. apply in_flat_map in Hin. destruct Hin as (k & Hk & Hin).
  destruct (Hcs k Hk) as (ct' & Hct & Hpk).
  unfold searched_for in Hin. rewrite Hct in Hin.
  apply in_map_iff in Hin. destruct Hin as (p & [= <- _] & _). assumption.
Qed.

(** ** The permission table after a run *)

(** The table after a run is the table before it followed by the rows the
    run handed to [bulk_create]; the content-type table only grows. *)
Lemma create_permissions_tables env db :
  permissions (final (create_permissions env db))
  = permissions db ++ inserted (create_permissions env db)
  /\ extends (final (create_permissions env db)) db.
Proof.
  unfold inserted.
  destruct (eligible env) eqn:Hel.
  - destruct (eligible_inv env Hel) as (mm & P & Hmm & HP & Hallow).
    rewrite (create_permissions_eligible env db mm P Hmm HP Hallow). cbv zeta.
    destruct (for_klass_frame (max_length P - 11) (get_mongo_models (site_registry env))
                [] [] db) as [Hperm Hext].
    pose proof (for_klass_inserts_nothing (max_length P - 11)
                  (get_mongo_models (site_registry env)) [] [] db) as Hnone.
    destruct (value (for_klass _ _ _ _ db)) as [x | [sp cs]].
    + simpl. rewrite Hnone, app_nil_r. auto.
    + destruct (find _ _) as [perm|]; cbn [final events].
      * simpl. rewrite bulk_rows_app, Hnone. simpl. rewrite app_nil_r. auto.
      * split; [|exact Hext]. simpl. rewrite bulk_rows_app, Hnone. simpl.
        destruct (verbosity env >=? 2);
          rewrite ?bulk_rows_prints; simpl; rewrite app_nil_r; congruence.
  - destruct (create_permissions_ineligible env db Hel) as (checks & -> & Hc).
    simpl. split; [|apply extends_refl].
    destruct Hc as [-> | [-> | ->]]; simpl; now rewrite app_nil_r.
Qed.

(** ** What a run inserts and what it leaves alone *)

(** C3. Whatever the permission table and the registry hold, no row a run
    inserts has a (content type, codename) pair that the table already had
    before the run. *)
Theorem no_duplication env db :
  Forall (fun r => ~ In (row_key r) (map row_key (permissions db)))
         (inserted (create_permissions env db)).
Proof.
  unfold inserted.
  destruct (eligible env) eqn:Hel.
  - destruct (eligible_inv env Hel) as (mm & P & Hmm & HP & Hallow).
    rewrite (create_permissions_eligible env db mm P Hmm HP Hallow). cbv zeta.
    destruct (for_klass_frame (max_length P - 11) (get_mongo_models (site_registry env))
                [] [] db) as [Hperm _].
    pose proof (for_klass_inserts_nothing (max_length P - 11)
                  (get_mongo_models (site_registry env)) [] [] db) as Hnone.
    destruct (value (for_klass _ _ _ _ db)) as [x | [sp cs]] eqn:Hv.
    + simpl. rewrite Hnone. constructor.
    + destruct (find _ _) as [perm|]; cbn [events].
      * simpl. rewrite bulk_rows_app, Hnone. constructor.
      * simpl. rewrite bulk_rows_app, Hnone. simpl.
        assert (Hprints : bulk_rows (if verbosity env >=? 2
                                     then map Print (missing_perms sp
                                            (permissions_in cs (permissions
                                               (final (for_klass (max_length P - 11)
                                                  (get_mongo_models (site_registry env))
                                                  [] [] db)))))
                                     else []) = [])
          by (destruct (verbosity env >=? 2); [apply bulk_rows_prints | reflexivity]).
        rewrite Hprints, app_nil_r, Hperm.
        apply Forall_forall. intros r Hr Hold.
        apply in_map_iff in Hr. destruct Hr as (perm & <- & Hmiss).
        apply missing_perms_In in Hmiss. destruct Hmiss as [Hsearched Hnot].
        apply Hnot. apply permissions_in_iff.
        apply in_map_iff in Hold. destruct Hold as (old & Hkey & Hin).
        exists old. repeat split; [assumption | exact Hkey |].
        simpl. eapply searched_in_ctypes; eassumption.
  - destruct (create_permissions_ineligible env db Hel) as (checks & -> & Hc).
    destruct Hc as [-> | [-> | ->]]; constructor.
Qed.

(** C8. The permission table after a run is the table before the run
    followed by the rows the run inserted: every earlier row is still
    there, at its place and with its content. *)
Theorem existing_rows_kept env db :
  permissions (final (create_permissions env db))
  = permissions db ++ inserted (create_permissions env db).
Proof. apply create_permissions_tables. Qed.

(** C5. When the application config has no models module, or the Permission
    model cannot be resolved, or the router does not allow migrating it on
    the alias, the handler returns without raising, leaves the database as
    it was, inserts nothing and calls nothing but the eligibility checks
    (and not even those when the models module is missing). *)
Theorem eligibility_skip env db :
  models_module (app_config env) = None
  \/ auth_Permission env = None
  \/ allow_migrate_model env = false ->
  value (create_permissions env db) = inl Return
  /\ final (create_permissions env db) = db
  /\ inserted (create_permissions env db) = []
  /\ processed (create_permissions env db) = []
  /\ forallb is_eligibility_check (events (create_permissions env db)) = true
  /\ (models_module (app_config env) = None -> events (create_permissions env db) = []).
Proof.
  intros H.
  assert (Hel : eligible env = false).
  { unfold eligible. destruct H as [-> | [-> | ->]]; [reflexivity | |].
    - now destruct (models_module _).
    - destruct (models_module _); [|reflexivity]. now destruct (auth_Permission _). }
  split; [|split; [|split; [|split; [|split]]]].
  6: { intros Hnone. unfold create_permissions. now rewrite Hnone. }
  all: destruct (create_permissions_ineligible env db Hel) as (checks & -> & Hc);
    destruct Hc as [-> | [-> | ->]]; reflexivity.
Qed.

Lemma eligibility_skip_witness :
  (models_module (app_config Sample.env_no_models) = None
   \/ auth_Permission Sample.env_no_models = None
   \/ allow_migrate_model Sample.env_no_models = false)
  /\ value (create_permissions Sample.env_no_models Sample.stale) = inl Return
  /\ final (create_permissions Sample.env_no_models Sample.stale) = Sample.stale.
Proof.
  assert (H : models_module (app_config Sample.env_no_models) = None
              \/ auth_Permission Sample.env_no_models = None
              \/ allow_migrate_model Sample.env_no_models = false)
    by (left; reflexivity).
  split; [exact H|].
  destruct (eligibility_skip Sample.env_no_models Sample.stale H) as (Hv & Hf & _).
  split; assumption.
Defined.



(** ** Idempotence *)

Lemma filter_none {A} (f : A -> bool) l :
  (forall x, In x l -> f x = false) -> filter f l = [].
Proof.
  induction l as [|a l IH]; simpl; intros H; [reflexivity|].
  rewrite (H a) by auto. apply IH. auto.
Qed.

(** Once the missing permissions are in the table, none is missing. *)
Lemma missing_perms_after_insert sp cs table :
  (forall ct perm, In (ct, perm) sp -> pk_in (ContentType.pk ct) cs = true) ->
  missing_perms sp
    (permissions_in cs
       (table ++ map Permission.to_row (missing_perms sp (permissions_in cs table))))
  = [].
Proof.
  intros Hcs. unfold missing_perms at 1.
  rewrite filter_none; [reflexivity|].
  intros [ct [cn nm]] Hin.
  apply negb_false_iff, in_all_perms_iff.
  rewrite permissions_in_app. apply in_or_app.
  destruct (in_all_perms (ContentType.pk ct, cn) (permissions_in cs table)) eqn:Hold.
  - left. now apply in_all_perms_iff.
  - right. apply permissions_in_iff.
    exists (Permission.to_row (Permission.mk cn nm ct)).
    repeat split; [|simpl; eauto].
    apply in_map, missing_perms_In. simpl. split; [assumption|].
    rewrite <- in_all_perms_iff. congruence.
Qed.

(** C2. Running the handler a second time on the database the first run
    left, with the same registry and arguments, leaves that database as it
    is (so the permission table is the one a single run produces) and
    inserts no row. *)
Theorem idempotent env db :
  final (create_permissions env (final (create_permissions env db)))
  = final (create_permissions env db)
  /\ inserted (create_permissions env (final (create_permissions env db))) = [].
Proof.
  unfold inserted.
  destruct (eligible env) eqn:Hel.
  - destruct (eligible_inv env Hel) as (mm & P & Hmm & HP & Hallow).
    rewrite !(create_permissions_eligible env _ mm P Hmm HP Hallow). cbv zeta.
    set (limit := max_length P - 11).
    set (models := get_mongo_models (site_registry env)).
    set (r1 := for_klass limit models [] [] db).
    pose proof (for_klass_inserts_nothing limit models [] [] db) as Hnone.
    fold r1 in Hnone.
    destruct (value r1) as [x | [sp cs]] eqn:Hv.
    + cbn [final].
      rewrite (for_klass_rerun limit models [] [] db (final r1) eq_refl).
      fold r1. rewrite Hv. cbn [value final events].
      split; [reflexivity|]. simpl. exact Hnone.
    + pose proof (searched_in_ctypes _ _ _ _ _ Hv) as Hcs.
      destruct (find (name_too_long (max_length P))
                     (missing_perms sp (permissions_in cs (permissions (final r1)))))
        as [perm|] eqn:Hfind; cbn [final].
      * rewrite (for_klass_rerun limit models [] [] db (final r1) eq_refl).
        fold r1. rewrite Hv. cbn [value final events]. rewrite Hfind.
        cbn [final events]. split; [reflexivity|].
        simpl. rewrite bulk_rows_app, Hnone. reflexivity.
      * rewrite (for_klass_rerun limit models [] [] db
                   (mkDB (content_types (final r1))
                         (permissions (final r1)
                            ++ map Permission.to_row
                                 (missing_perms sp
                                    (permissions_in cs (permissions (final r1))))))
                   eq_refl).
        fold r1. rewrite Hv. cbn [value final events permissions content_types].
        rewrite (missing_perms_after_insert sp cs (permissions (final r1)) Hcs).
        cbn [find final events map]. rewrite app_nil_r.
        split; [reflexivity|].
        simpl. rewrite bulk_rows_app, Hnone. simpl.
        destruct (verbosity env >=? 2); reflexivity.
  - destruct (create_permissions_ineligible env db Hel) as (checks & -> & Hc).
    cbn [final].
    destruct (create_permissions_ineligible env db Hel) as (checks' & -> & Hc').
    split; [reflexivity|].
    destruct Hc' as [-> | [-> | ->]]; reflexivity.
Qed.

(** ** The two length checks *)

Lemma len_append s t : len (s ++ t)%string = len s + len t.
Proof.
  unfold len. induction s as [|c s IH]; simpl String.length; [reflexivity|].
  rewrite !Nat2Z.inj_succ. cbn [String.append String.length] in *. lia.
Qed.

(** The display names [get_default_permissions] builds put at most eleven
    characters in front of [verbose_name_raw]. *)
Lemma default_permission_name_len opts codename name :
  In (codename, name) (get_default_permissions opts) ->
  exists prefix,
    In prefix ["Can add "; "Can change "; "Can delete "]
    /\ name = (prefix ++ verbose_name_raw opts)%string
    /\ len prefix <= 11.
Proof.
  unfold get_default_permissions, actions. simpl.
  intros [[= _ <-] | [[= _ <-] | [[= _ <-] | []]]].
  - exists "Can add ". simpl. repeat split; auto. unfold len. simpl. lia.
  - exists "Can change ". simpl. repeat split; auto. unfold len. simpl. lia.
  - exists "Can delete ". simpl. repeat split; auto 6. unfold len. simpl. lia.
Qed.

(** The permissions a finished loop is looking for come from the classes of
    the list. *)
Lemma searched_from_models limit models db sp cs ct codename name :
  value (for_klass limit models [] [] db) = inr (sp, cs) ->
  In (ct, (codename, name)) sp ->
  exists klass,
    In klass models
    /\ verbose_name_too_long limit klass = false
    /\ ctype_of (final (for_klass limit models [] [] db)) klass = Some ct
    /\ In (codename, name) (get_default_permissions (_meta klass)).
Proof.
  intros Hv Hin.
  destruct (for_klass_ok _ _ _ _ _ _ _ Hv) as (Hall & _ & -> & Hcs & _).
  simpl in Hin. apply in_flat_map in Hin. destruct Hin as (k & Hk & Hin).
  destruct (Hcs k Hk) as (ct' & Hct & _).
  unfold searched_for in Hin. rewrite Hct in Hin.
  apply in_map_iff in Hin. destruct Hin as (p & [= <- <-] & Hp).
  exists k. rewrite Forall_forall in Hall. auto.
Qed.

(** C10. When every document model has [verbose_name] equal to
    [verbose_name_raw] and passes the first check,
    [len(verbose_name) <= permission_name_max_length - 11], the second
    check never raises: each name built is one of "Can add ", "Can change ",
    "Can delete " (at most 11 characters) followed by the verbose name, so it
    fits the field. *)
Theorem second_check_unreachable env db :
  (forall m, In m (get_mongo_models (site_registry env)) ->
             verbose_name (_meta m) = verbose_name_raw (_meta m)) ->
  (forall P m, auth_Permission env = Some P ->
               In m (get_mongo_models (site_registry env)) ->
               len (verbose_name (_meta m)) <= max_length P - 11) ->
  (forall perm limit,
      value (create_permissions env db) <> inl (Raise (PermissionNameTooLong perm limit)))
  /\ (forall P m codename name,
        auth_Permission env = Some P ->
        In m (get_mongo_models (site_registry env)) ->
        In (codename, name) (get_default_permissions (_meta m)) ->
        (exists prefix,
            In prefix ["Can add "; "Can change "; "Can delete "]
            /\ len prefix <= 11
            /\ name = (prefix ++ verbose_name (_meta m))%string)
        /\ len name <= max_length P).
Proof.
  intros Hraw Hfirst.
  assert (Hfit : forall P m codename name,
             auth_Permission env = Some P ->
             In m (get_mongo_models (site_registry env)) ->
             In (codename, name) (get_default_permissions (_meta m)) ->
             (exists prefix,
                 In prefix ["Can add "; "Can change "; "Can delete "]
                 /\ len prefix <= 11
                 /\ name = (prefix ++ verbose_name (_meta m))%string)
             /\ len name <= max_length P).
  { intros P m codename name HP Hm Hin.
    destruct (default_permission_name_len _ _ _ Hin) as (prefix & Hpre & -> & Hlen).
    rewrite <- (Hraw m Hm). split; [exists prefix; auto|].
    rewrite len_append. specialize (Hfirst P m HP Hm). lia. }
  split; [|exact Hfit].
  intros perm limit Hraise.
  destruct (eligible env) eqn:Hel.
  - destruct (eligible_inv env Hel) as (mm & P & Hmm & HP & Hallow).
    rewrite (create_permissions_eligible env db mm P Hmm HP Hallow) in Hraise.
    cbv zeta in Hraise.
    destruct (value (for_klass _ _ _ _ db)) as [x | [sp cs]] eqn:Hv.
    + destruct (for_klass_raise _ _ _ _ _ _ Hv) as (_ & _ & _ & ct & _ & _ & _ & -> & _).
      discriminate.
    + destruct (find _ _) as [p|] eqn:Hfind; [|discriminate].
      apply find_some in Hfind. destruct Hfind as [Hin Hlong].
      apply missing_perms_In in Hin. destruct Hin as [Hin _].
      destruct (searched_from_models _ _ _ _ _ _ _ _ Hv Hin) as (k & Hk & _ & _ & Hdef).
      destruct (Hfit P k _ _ HP Hk Hdef) as [_ Hle].
      unfold name_too_long in Hlong. apply Z.gtb_lt in Hlong. lia.
  - destruct (create_permissions_ineligible env db Hel) as (checks & Heq & _).
    rewrite Heq in Hraise. discriminate.
Qed.

Lemma second_check_unreachable_witness :
  (forall m, In m (get_mongo_models (site_registry Sample.env)) ->
             verbose_name (_meta m) = verbose_name_raw (_meta m))
  /\ (forall P m, auth_Permission Sample.env = Some P ->
                  In m (get_mongo_models (site_registry Sample.env)) ->
                  len (verbose_name (_meta m)) <= max_length P - 11)
  /\ value (create_permissions Sample.env Sample.stale) = inr tt
  /\ forall perm limit,
       value (create_permissions Sample.env Sample.stale)
       <> inl (Raise (PermissionNameTooLong perm limit)).
Proof.
  assert (H1 : forall m, In m (get_mongo_models (site_registry Sample.env)) ->
                         verbose_name (_meta m) = verbose_name_raw (_meta m))
    by (intros m [<- | []]; reflexivity).
  assert (H2 : forall P m, auth_Permission Sample.env = Some P ->
                           In m (get_mongo_models (site_registry Sample.env)) ->
                           len (verbose_name (_meta m)) <= max_length P - 11)
    by (intros P m [= <-] [<- | []]; vm_compute; discriminate).
  split; [exact H1|]. split; [exact H2|]. split; [reflexivity|].
  exact (proj1 (second_check_unreachable Sample.env Sample.stale H1 H2)).
Defined.

(** A run that raises at the first check: what was looked up, what was
    created and what was left alone. *)
Lemma first_check_abort env db ct limit :
  value (create_permissions env db) = inl (Raise (VerboseNameTooLong ct limit)) ->
  exists pre klass post,
    get_mongo_models (site_registry env) = pre ++ klass :: post
    /\ Forall (fun k => verbose_name_too_long limit k = false) pre
    /\ verbose_name_too_long limit klass = true
    /\ ctype_of (final (create_permissions env db)) klass = Some ct
    /\ processed (create_permissions env db) = pre ++ [klass]
    /\ (forall k, In k (pre ++ [klass]) ->
          ctype_of (final (create_permissions env db)) k <> None)
    /\ inserted (create_permissions env db) = []
    /\ permissions (final (create_permissions env db)) = permissions db.
Proof.
  intros Hraise. unfold processed, inserted.
  destruct (eligible env) eqn:Hel.
  - destruct (eligible_inv env Hel) as (mm & P & Hmm & HP & Hallow).
    rewrite (create_permissions_eligible env db mm P Hmm HP Hallow) in *.
    cbv zeta in *.
    destruct (for_klass_frame (max_length P - 11) (get_mongo_models (site_registry env))
                [] [] db) as [Hperm _].
    destruct (value (for_klass _ _ _ _ db)) as [x | [sp cs]] eqn:Hv.
    + cbn [value final events] in *. injection Hraise as ->.
      destruct (for_klass_raise _ _ _ _ _ _ Hv)
        as (pre & k & post & ct' & Hsplit & Hpre & Hk & Hx & Hct & Hev & Hall).
      injection Hx as -> ->.
      exists pre, k, post. rewrite Hev.
      repeat split; auto.
      * simpl. apply lookups_lookups.
      * simpl. apply bulk_rows_lookups.
    + destruct (find _ _); discriminate.
  - destruct (create_permissions_ineligible env db Hel) as (checks & Heq & _).
    rewrite Heq in Hraise. discriminate.
Qed.

(** C4, as stated, fails: with a document model whose longest default
    permission name does not fit the field, a call for an application
    without a models module returns silently instead of raising. *)
Lemma length_guard_behind_eligibility :
  In Sample.Confirmation (get_mongo_models (site_registry Sample.env_long_no_models))
  /\ auth_Permission Sample.env_long_no_models = Some Sample.auth_Permission_50
  /\ len ("Can delete " ++ verbose_name (_meta Sample.Confirmation))%string
     > max_length Sample.auth_Permission_50
  /\ value (create_permissions Sample.env_long_no_models Sample.empty) = inl Return.
Proof.
  repeat split; simpl; auto.
Qed.

(** C4, amended. In a call that passes the three eligibility checks, if some
    document model of the registry has a verbose name for which
    "Can delete " + verbose_name is longer than the name field allows, the
    handler raises the verbose-name validation error, for the first such
    model in iteration order, and the whole batch is dropped: no permission
    row is inserted, for that model or any other. *)
Theorem length_guard env db P m :
  eligible env = true ->
  auth_Permission env = Some P ->
  In m (get_mongo_models (site_registry env)) ->
  len ("Can delete " ++ verbose_name (_meta m))%string > max_length P ->
  (exists pre klass post ct,
      get_mongo_models (site_registry env) = pre ++ klass :: post
      /\ Forall (fun k => verbose_name_too_long (max_length P - 11) k = false) pre
      /\ verbose_name_too_long (max_length P - 11) klass = true
      /\ ctype_of (final (create_permissions env db)) klass = Some ct
      /\ value (create_permissions env db)
         = inl (Raise (VerboseNameTooLong ct (max_length P - 11))))
  /\ inserted (create_permissions env db) = []
  /\ permissions (final (create_permissions env db)) = permissions db.
Proof.
  intros Hel HP Hm Hlong.
  assert (Hm_long : verbose_name_too_long (max_length P - 11) m = true).
  { unfold verbose_name_too_long. apply Z.gtb_lt.
    rewrite len_append in Hlong. change (len "Can delete ") with 11 in Hlong. lia. }
  assert (Hraise : exists ct,
             value (create_permissions env db)
             = inl (Raise (VerboseNameTooLong ct (max_length P - 11)))).
  { destruct (eligible_inv env Hel) as (mm & P' & Hmm & HP' & Hallow).
    rewrite HP in HP'. injection HP' as <-.
    rewrite (create_permissions_eligible env db mm P Hmm HP Hallow). cbv zeta.
    destruct (value (for_klass _ _ _ _ db)) as [x | [sp cs]] eqn:Hv.
    - destruct (for_klass_raise _ _ _ _ _ _ Hv) as (_ & _ & _ & ct & _ & _ & _ & -> & _).
      exists ct. reflexivity.
    - destruct (for_klass_ok _ _ _ _ _ _ _ Hv) as (Hall & _).
      rewrite Forall_forall in Hall. rewrite (Hall m Hm) in Hm_long. discriminate. }
  destruct Hraise as [ct Hraise].
  destruct (first_check_abort env db ct _ Hraise)
    as (pre & k & post & Hsplit & Hpre & Hk & Hct & _ & _ & Hins & Hperm).
  split; [|auto].
  exists pre, k, post, ct. auto.
Qed.

Lemma length_guard_witness :
  eligible Sample.env_long = true
  /\ In Sample.Confirmation (get_mongo_models (site_registry Sample.env_long))
  /\ len ("Can delete " ++ verbose_name (_meta Sample.Confirmation))%string > 50
  /\ inserted (create_permissions Sample.env_long Sample.stale) = []
  /\ permissions (final (create_permissions Sample.env_long Sample.stale))
     = permissions Sample.stale.
Proof.
  assert (H1 : eligible Sample.env_long = true) by reflexivity.
  assert (H2 : In Sample.Confirmation (get_mongo_models (site_registry Sample.env_long)))
    by (simpl; auto).
  assert (H3 : len ("Can delete " ++ verbose_name (_meta Sample.Confirmation))%string
               > max_length Sample.auth_Permission_50) by reflexivity.
  split; [exact H1|]. split; [exact H2|]. split; [exact H3|].
  exact (proj2 (length_guard Sample.env_long Sample.stale Sample.auth_Permission_50
                  Sample.Confirmation H1 eq_refl H2 H3)).
Defined.

(** C9. A run that raises the verbose-name validation error has already
    looked up, with creation, the content type of the offending model and
    of every model iterated before it, and of no other: each of them has
    its row in the content-type table the run leaves behind, a row that is
    new whenever the model had none before, while no permission row is
    inserted. *)
Theorem abort_keeps_content_types env db ct limit :
  value (create_permissions env db) = inl (Raise (VerboseNameTooLong ct limit)) ->
  exists pre klass post,
    get_mongo_models (site_registry env) = pre ++ klass :: post
    /\ verbose_name_too_long limit klass = true
    /\ processed (create_permissions env db) = pre ++ [klass]
    /\ (forall k, In k (pre ++ [klass]) ->
          exists c,
            ctype_of (final (create_permissions env db)) k = Some c
            /\ In c (content_types (final (create_permissions env db)))
            /\ (ctype_of db k = None -> ~ In c (content_types db)))
    /\ inserted (create_permissions env db) = []
    /\ permissions (final (create_permissions env db)) = permissions db.
Proof.
  intros Hraise.
  destruct (first_check_abort env db ct limit Hraise)
    as (pre & k & post & Hsplit & _ & Hk & _ & Hproc & Hall & Hins & Hperm).
  exists pre, k, post. repeat split; auto.
  intros m Hm. specialize (Hall m Hm).
  destruct (ctype_of (final (create_permissions env db)) m) as [c|] eqn:Hc;
    [|congruence].
  exists c. destruct (ctype_of_natural_key _ _ _ Hc) as (Hin & Hlabel & Hmodel).
  repeat split; auto.
  intros Hnone Hold. unfold ctype_of, get_content_type in Hnone.
  pose proof (find_none _ _ Hnone c Hold) as Hno.
  unfold natural_key_eqb in Hno.
  now rewrite Hlabel, Hmodel, !String.eqb_refl in Hno.
Qed.

Lemma abort_keeps_content_types_witness :
  value (create_permissions Sample.env_long Sample.empty)
  = inl (Raise (VerboseNameTooLong (ContentType.mk 2 "billing" "confirmation") 39))
  /\ content_types Sample.empty = []
  /\ content_types (final (create_permissions Sample.env_long Sample.empty))
     = [ContentType.mk 1 "billing" "invoice"; ContentType.mk 2 "billing" "confirmation"]
  /\ exists pre klass post,
       get_mongo_models (site_registry Sample.env_long) = pre ++ klass :: post
       /\ processed (create_permissions Sample.env_long Sample.empty) = pre ++ [klass]
       /\ inserted (create_permissions Sample.env_long Sample.empty) = [].
Proof.
  split; [reflexivity|]. split; [reflexivity|]. split; [reflexivity|].
  destruct (abort_keeps_content_types Sample.env_long Sample.empty
              (ContentType.mk 2 "billing" "confirmation") 39 eq_refl)
    as (pre & k & post & H1 & _ & H2 & _ & H3 & _).
  exists pre, k, post. auto.
Defined.

(** ** Primary keys of content types *)

Lemma next_pk_fresh table id :
  In id (map ContentType.pk table) -> id < next_pk table.
Proof.
  unfold next_pk. induction table as [|ct table IH]; cbn [map fold_right In]; [intros []|].
  intros [<- | Hin]; [lia|]. specialize (IH Hin). lia.
Qed.

Lemma get_for_model_pk_unique klass db :
  pk_unique db -> pk_unique (final (get_for_model klass db)).
Proof.
  unfold pk_unique, get_for_model. intros Hu.
  destruct (get_content_type _ _ (content_types db)); simpl; [assumption|].
  rewrite map_app. apply NoDup_app; [assumption | repeat constructor; intros [] |].
  simpl. intros id Hin [<- | []].
  apply next_pk_fresh in Hin. lia.
Qed.

Lemma for_klass_pk_unique limit models : forall sp cs db,
  pk_unique db -> pk_unique (final (for_klass limit models sp cs db)).
Proof.
  induction models as [|klass rest IH]; intros sp cs db Hu; [assumption|].
  destruct (for_klass_cons limit klass rest sp cs db) as (ct & _ & ->).
  pose proof (get_for_model_pk_unique klass db Hu).
  destruct (verbose_name_too_long limit klass); cbv zeta; cbn [final]; auto.
Qed.

Lemma pk_unique_inj db ct ct' :
  pk_unique db ->
  In ct (content_types db) -> In ct' (content_types db) ->
  ContentType.pk ct = ContentType.pk ct' -> ct = ct'.
Proof.
  unfold pk_unique. induction (content_types db) as [|c table IH]; simpl; [intros _ []|].
  intros Hu Hin Hin' Heq. apply NoDup_cons_iff in Hu. destruct Hu as [Hnot Hu].
  destruct Hin as [-> | Hin], Hin' as [-> | Hin']; auto.
  - exfalso. apply Hnot. rewrite Heq. now apply in_map.
  - exfalso. apply Hnot. rewrite <- Heq. now apply in_map.
Qed.

(** ** Completeness *)

(** A codename tells the action and the model name apart. *)
Lemma get_permission_codename_inj a a' opts opts' :
  In a actions -> In a' actions ->
  get_permission_codename a opts = get_permission_codename a' opts' ->
  a = a' /\ model_name opts = model_name opts'.
Proof.
  unfold actions, get_permission_codename. simpl.
  intros [<- | [<- | [<- | []]]] [<- | [<- | [<- | []]]]; simpl; intros H;
    try discriminate; injection H; auto.
Qed.

Lemma filter_filter_keep {A} (f g : A -> bool) l :
  (forall x, In x l -> g x = true -> f x = true) ->
  filter g (filter f l) = filter g l.
Proof.
  induction l as [|a l IH]; simpl; intros H; [reflexivity|].
  destruct (g a) eqn:Hg.
  - rewrite (H a) by auto. simpl. rewrite Hg. f_equal. auto.
  - destruct (f a); simpl; rewrite ?Hg; auto.
Qed.

Lemma filter_filter_drop {A} (f g : A -> bool) l :
  (forall x, In x l -> g x = true -> f x = false) ->
  filter g (filter f l) = [].
Proof.
  induction l as [|a l IH]; simpl; intros H; [reflexivity|].
  destruct (f a) eqn:Hf; simpl; auto.
  destruct (g a) eqn:Hg; auto.
  rewrite (H a) in Hf by auto. discriminate.
Qed.

(** Of the three permissions searched for a class, one has the codename of
    the action. *)
Lemma searched_for_own db m ct a :
  ctype_of db m = Some ct -> In a actions ->
  filter (searched_key_eqb (ContentType.pk ct, get_permission_codename a (_meta m)))
         (searched_for db m)
  = [(ct, (get_permission_codename a (_meta m),
           ("Can " ++ a ++ " " ++ verbose_name_raw (_meta m))%string))].
Proof.
  intros Hct Ha. unfold searched_for. rewrite Hct.
  unfold get_default_permissions, actions, searched_key_eqb, get_permission_codename in *.
  simpl in Ha. destruct Ha as [<- | [<- | [<- | []]]]; simpl;
    rewrite !Z.eqb_refl, !String.eqb_refl; reflexivity.
Qed.

(** A class with another natural key contributes nothing under that key. *)
Lemma searched_for_other db m k ct a :
  pk_unique db ->
  ctype_of db m = Some ct -> In a actions ->
  natural_key k <> natural_key m ->
  filter (searched_key_eqb (ContentType.pk ct, get_permission_codename a (_meta m)))
         (searched_for db k)
  = [].
Proof.
  intros Hu Hct Ha Hne. apply filter_none. intros [ct' [cn nm]] Hin.
  destruct (searched_key_eqb _ _) eqn:Hkey; [exfalso | reflexivity].
  unfold searched_for in Hin.
  destruct (ctype_of db k) as [ck|] eqn:Hck; [|destruct Hin].
  apply in_map_iff in Hin. destruct Hin as (p & Heq & Hp).
  injection Heq as -> ->.
  unfold get_default_permissions in Hp. apply in_map_iff in Hp.
  destruct Hp as (a' & Heq & Ha'). injection Heq as <- <-.
  unfold searched_key_eqb in Hkey. simpl in Hkey.
  apply andb_true_iff in Hkey. destruct Hkey as [Hpk Hcn].
  apply Z.eqb_eq in Hpk. apply String.eqb_eq in Hcn.
  destruct (get_permission_codename_inj _ _ _ _ Ha' Ha Hcn) as [_ Hname].
  destruct (ctype_of_natural_key _ _ _ Hct) as (Hin & Hl & _).
  destruct (ctype_of_natural_key _ _ _ Hck) as (Hink & Hlk & _).
  assert (ct' = ct) by (eapply pk_unique_inj; eauto). subst ct'.
  apply Hne. unfold natural_key. congruence.
Qed.

(** Among the permissions searched for classes with distinct natural keys,
    exactly one carries the key of a given class and action. *)
Lemma searched_once db models m ct a :
  pk_unique db ->
  NoDup (map natural_key models) ->
  In m models -> ctype_of db m = Some ct -> In a actions ->
  filter (searched_key_eqb (ContentType.pk ct, get_permission_codename a (_meta m)))
         (flat_map (searched_for db) models)
  = [(ct, (get_permission_codename a (_meta m),
           ("Can " ++ a ++ " " ++ verbose_name_raw (_meta m))%string))].
Proof.
  intros Hu Hnd Hm Hct Ha.
  apply in_split in Hm. destruct Hm as (l1 & l2 & ->).
  rewrite map_app in Hnd. simpl in Hnd. apply NoDup_remove_2 in Hnd.
  assert (Hother : forall l, (forall k, In k l -> In (natural_key k) (map natural_key l1 ++ map natural_key l2)) ->
            filter (searched_key_eqb (ContentType.pk ct, get_permission_codename a (_meta m)))
                   (flat_map (searched_for db) l) = []).
  { induction l as [|k l IH]; intros Hl; [reflexivity|].
    simpl. rewrite filter_app, IH by (intros; apply Hl; now right).
    rewrite (searched_for_other db m k ct a Hu Hct Ha); [reflexivity|].
    intros Heq. apply Hnd. rewrite <- Heq. apply Hl. now left. }
  rewrite flat_map_app. simpl. rewrite !filter_app.
  rewrite (Hother l1), (Hother l2), (searched_for_own db m ct a Hct Ha).
  - reflexivity.
  - intros k Hk. apply in_or_app. right. now apply in_map.
  - intros k Hk. apply in_or_app. left. now apply in_map.
Qed.

Lemma create_permissions_pk_unique env db :
  pk_unique db -> pk_unique (final (create_permissions env db)).
Proof.
  intros Hu.
  destruct (eligible env) eqn:Hel.
  - destruct (eligible_inv env Hel) as (mm & P & Hmm & HP & Hallow).
    rewrite (create_permissions_eligible env db mm P Hmm HP Hallow). cbv zeta.
    pose proof (for_klass_pk_unique (max_length P - 11)
                  (get_mongo_models (site_registry env)) [] [] db Hu) as Hu1.
    destruct (value (for_klass _ _ _ _ db)) as [x | [sp cs]]; [exact Hu1|].
    destruct (find _ _); exact Hu1.
  - destruct (create_permissions_ineligible env db Hel) as (checks & -> & _).
    exact Hu.
Qed.

(** C1, as stated, fails: the class [Invoice] is registered and the run
    reaches its end, yet the table it leaves has no row with codename
    "add_invoice", display name "Can add invoice" and the content type of
    [Invoice], because a row with that codename and content type was
    already there under another display name. *)
Lemma completeness_fails_on_stale_name :
  In Sample.Invoice (get_mongo_models (site_registry Sample.env))
  /\ In "add"%string actions
  /\ value (create_permissions Sample.env Sample.stale) = inr tt
  /\ ctype_of (final (create_permissions Sample.env Sample.stale)) Sample.Invoice
     = Some (ContentType.mk 1 "billing" "invoice")
  /\ ~ In (Permission.mkRow 1 "add_invoice" "Can add invoice")
          (permissions (final (create_permissions Sample.env Sample.stale))).
Proof.
  repeat split; simpl; auto.
  intros [H | [H | [H | []]]]; discriminate.
Qed.

(** C1, amended. Take a run that reaches its end (it passed the three
    eligibility checks and raised no validation error), on a content-type
    table whose primary keys are unique and a registry whose document
    models have pairwise distinct (app label, model name). Then for every
    registered document model M and every action a of add, change, delete,
    M has a content type, and the rows with codename "a_<model name>" and
    that content type are: the rows that were there before the run,
    untouched, when there was any; otherwise exactly one row, with display
    name "Can a <verbose_name_raw>". *)
Theorem completeness env db m a :
  value (create_permissions env db) = inr tt ->
  pk_unique db ->
  NoDup (map natural_key (get_mongo_models (site_registry env))) ->
  In m (get_mongo_models (site_registry env)) ->
  In a actions ->
  exists ct,
    ctype_of (final (create_permissions env db)) m = Some ct
    /\ rows_with (ContentType.pk ct, get_permission_codename a (_meta m))
                 (permissions (final (create_permissions env db)))
       = match rows_with (ContentType.pk ct, get_permission_codename a (_meta m))
                         (permissions db) with
         | [] => [default_row ct a m]
         | old => old
         end.
Proof.
  intros Hend Hu Hnd Hm Ha.
  pose proof (create_permissions_pk_unique env db Hu) as Hu'.
  destruct (eligible env) eqn:Hel.
  2: { destruct (create_permissions_ineligible env db Hel) as (checks & Heq & _).
       rewrite Heq in Hend. discriminate. }
  destruct (eligible_inv env Hel) as (mm & P & Hmm & HP & Hallow).
  rewrite (create_permissions_eligible env db mm P Hmm HP Hallow) in *.
  cbv zeta in *.
  set (models := get_mongo_models (site_registry env)) in *.
  set (r1 := for_klass (max_length P - 11) models [] [] db) in *.
  destruct (for_klass_frame (max_length P - 11) models [] [] db) as [Hperm _].
  fold r1 in Hperm.
  destruct (value r1) as [x | [sp cs]] eqn:Hv; [discriminate|].
  destruct (find _ _); [discriminate|].
  cbn [final permissions content_types] in *.
  destruct (for_klass_ok _ _ _ _ _ _ _ Hv) as (_ & _ & Hsp & Hcs & _).
  fold r1 in Hsp, Hcs. simpl in Hsp.
  destruct (Hcs m Hm) as (ct & Hct & Hpk).
  assert (Hct' : ctype_of (mkDB (content_types (final r1))
                                (permissions (final r1)
                                   ++ map Permission.to_row
                                        (missing_perms sp
                                           (permissions_in cs (permissions (final r1))))))
                          m = Some ct) by exact Hct.
  exists ct. split; [exact Hct'|].
  set (key := (ContentType.pk ct, get_permission_codename a (_meta m))).
  unfold rows_with. rewrite filter_app, filter_map_swap, Hperm.
  unfold missing_perms. rewrite filter_map_swap.
  assert (Hg : forall x : ContentType.t * (string * string),
             row_key_eqb key
               (Permission.to_row (let '(ct0, (codename, name)) := x in
                                   Permission.mk codename name ct0))
             = searched_key_eqb key x)
    by (intros [c [cn nm]]; reflexivity).
  rewrite (filter_ext _ _ Hg).
  assert (Hmember : In key (permissions_in cs (permissions db))
                    <-> filter (row_key_eqb key) (permissions db) <> []).
  { rewrite permissions_in_iff. split.
    - intros (r & Hin & Hkey & _) Hnil.
      assert (Hr : In r (filter (row_key_eqb key) (permissions db))).
      { apply filter_In. split; [assumption|]. unfold row_key_eqb.
        unfold row_key in Hkey. rewrite <- Hkey. simpl.
        now rewrite Z.eqb_refl, String.eqb_refl. }
      rewrite Hnil in Hr. destruct Hr.
    - intros Hne. destruct (filter (row_key_eqb key) (permissions db)) as [|r rest] eqn:Hf;
        [congruence|].
      assert (Hr : In r (filter (row_key_eqb key) (permissions db)))
        by (rewrite Hf; now left).
      apply filter_In in Hr. destruct Hr as [Hin Hkey].
      exists r. repeat split; [assumption | | exact Hpk].
      unfold row_key_eqb in Hkey. apply andb_true_iff in Hkey.
      destruct Hkey as [H1 H2]. apply Z.eqb_eq in H1. apply String.eqb_eq in H2.
      unfold row_key. subst key. simpl in *. congruence. }
  assert (Hsame : forall x, searched_key_eqb key x = true ->
                            (ContentType.pk (fst x), fst (snd x)) = key).
  { intros [c [cn nm]] Hx. subst key. unfold searched_key_eqb in Hx.
    cbn [fst snd] in *.
    apply andb_true_iff in Hx. destruct Hx as [H1 H2].
    apply Z.eqb_eq in H1. apply String.eqb_eq in H2.
    now rewrite H1, H2. }
  destruct (filter (row_key_eqb key) (permissions db)) as [|r rest] eqn:Hold.
  - rewrite filter_filter_keep.
    + subst key. rewrite Hsp.
      rewrite (searched_once (final r1) models m ct a Hu' Hnd Hm Hct Ha).
      reflexivity.
    + intros [c [cn nm]] _ Hx. apply negb_true_iff.
      destruct (in_all_perms (ContentType.pk c, cn) (permissions_in cs (permissions db)))
        eqn:Hin; [|reflexivity].
      apply in_all_perms_iff in Hin.
      change (ContentType.pk c, cn)
        with (ContentType.pk (fst (c, (cn, nm))), fst (snd (c, (cn, nm)))) in Hin.
      rewrite (Hsame _ Hx) in Hin.
      apply Hmember in Hin. congruence.
  - rewrite filter_filter_drop; [now rewrite app_nil_r|].
    intros [c [cn nm]] _ Hx. apply negb_false_iff, in_all_perms_iff.
    change (ContentType.pk c, cn)
      with (ContentType.pk (fst (c, (cn, nm))), fst (snd (c, (cn, nm)))).
    rewrite (Hsame _ Hx). apply Hmember. congruence.
Qed.

Lemma completeness_witness :
  value (create_permissions Sample.env Sample.empty) = inr tt
  /\ pk_unique Sample.empty
  /\ NoDup (map natural_key (get_mongo_models (site_registry Sample.env)))
  /\ exists ct,
       ctype_of (final (create_permissions Sample.env Sample.empty)) Sample.Invoice = Some ct
       /\ rows_with (ContentType.pk ct, "delete_invoice"%string)
                    (permissions (final (create_permissions Sample.env Sample.empty)))
          = [default_row ct "delete" Sample.Invoice].
Proof.
  assert (H1 : pk_unique Sample.empty) by constructor.
  assert (H2 : NoDup (map natural_key (get_mongo_models (site_registry Sample.env))))
    by (repeat constructor; intros []).
  assert (H3 : In Sample.Invoice (get_mongo_models (site_registry Sample.env)))
    by (left; reflexivity).
  assert (H4 : In "delete"%string actions) by (simpl; auto).
  split; [reflexivity|]. split; [exact H1|]. split; [exact H2|].
  exact (completeness Sample.env Sample.empty Sample.Invoice "delete" eq_refl H1 H2 H3 H4).
Defined.

(** ** Substitution of the default admin site *)

Lemma parse_threshold : StrictVersion.parse "1.9" = Some threshold.
Proof. reflexivity. Qed.

(** The versions below the threshold: a smaller (major, minor, patch), or
    a pre-release of 1.9.0. *)
Lemma below_threshold v :
  StrictVersion.lt v threshold = true <->
  StrictVersion.compare_version (StrictVersion.version v) (1, 9, 0) = Lt
  \/ (StrictVersion.compare_version (StrictVersion.version v) (1, 9, 0) = Eq
      /\ StrictVersion.prerelease v <> None).
Proof.
  unfold StrictVersion.lt, StrictVersion._cmp, threshold.
  cbn [StrictVersion.version StrictVersion.prerelease].
  destruct (StrictVersion.compare_version (StrictVersion.version v) (1, 9, 0)).
  - destruct (StrictVersion.prerelease v) as [pre|]; split.
    + intros _. right. split; [reflexivity | discriminate].
    + reflexivity.
    + discriminate.
    + intros [H | [_ H]]; [discriminate | congruence].
  - split; auto.
  - split; [discriminate|]. intros [H | [H _]]; discriminate.
Qed.

(** With the override on and a version text [StrictVersion] accepts, the
    module runs to its end and only rebinds the registry of [site] and the
    attribute the version selects. *)
Lemma module_body_override settings django_version site p v :
  Substitution.override_admin settings = true ->
  StrictVersion.parse django_version = Some v ->
  Substitution.module_body settings django_version site p =
  inr (Substitution.mkProcess
         (Substitution.dicts p)
         (Substitution.set_registry site
            (Substitution._registry
               (Substitution.sites p (default_site (path_for v) p)))
            (Substitution.sites p))
         (match path_for v with
          | django_contrib_admin => site
          | django_contrib_admin_sites => Substitution.django_contrib_admin_site p
          end)
         (match path_for v with
          | django_contrib_admin => Substitution.django_contrib_admin_sites_site p
          | django_contrib_admin_sites => site
          end)).
Proof.
  intros Hflag Hparse. unfold Substitution.module_body.
  rewrite Hflag, Hparse, parse_threshold. unfold path_for.
  destruct (StrictVersion.lt v threshold); reflexivity.
Qed.

(** A version text [StrictVersion] rejects makes the import raise, and
    nothing is replaced. *)
Lemma module_body_invalid_version settings django_version site p :
  Substitution.override_admin settings = true ->
  StrictVersion.parse django_version = None ->
  Substitution.module_body settings django_version site p
  = inl (Substitution.ValueError django_version).
Proof.
  intros Hflag Hparse. unfold Substitution.module_body. now rewrite Hflag, Hparse.
Qed.



(** Substitution rebinds rather than copies: the registry of [site] is the
    very dict of the site it replaces, so what [site] had registered in a
    dict of its own is no longer reachable through it. *)
Example substitution_shares_the_dict :
  exists p',
    Substitution.module_body Sample.override_on "1.10" 1%nat Sample.process = inr p'
    /\ Substitution.django_contrib_admin_site p' = 0%nat
    /\ Substitution.django_contrib_admin_sites_site p' = 1%nat
    /\ Substitution._registry (Substitution.sites p' 1%nat)
       = Substitution._registry (Substitution.sites p' 0%nat)
    /\ Substitution.registry_of Sample.process 1%nat
       = [(Sample.Invoice, mkModelAdmin "InvoiceAdmin")]
    /\ Substitution.registry_of p' 1%nat = [(Sample.User, mkModelAdmin "UserAdmin")].
Proof. eexists. repeat split. Qed.

Example substitution_on_release_candidate :
  Substitution.module_body Sample.override_on "1.9rc1" 1%nat Sample.process
  = inl (Substitution.ValueError "1.9rc1").
Proof. reflexivity. Qed.

Example substitution_setting_absent :
  Substitution.module_body Sample.override_absent "1.9rc1" 1%nat Sample.process
  = inr Sample.process.
Proof. reflexivity. Qed.

(** ** The scenario of the specification *)

(** One document model [Invoice] and no permission for it: the run inserts
    the three rows, and a second run inserts none. *)
Example scenario_first_run :
  inserted (create_permissions Sample.env Sample.empty)
  = [Permission.mkRow 1 "add_invoice" "Can add invoice";
     Permission.mkRow 1 "change_invoice" "Can change invoice";
     Permission.mkRow 1 "delete_invoice" "Can delete invoice"].
Proof. reflexivity. Qed.

Example scenario_second_run :
  inserted (create_permissions Sample.env
              (final (create_permissions Sample.env Sample.empty))) = [].
Proof. reflexivity. Qed.

(** A permission found under its key is kept with the name it has. *)
Example stale_name_is_kept :
  permissions (final (create_permissions Sample.env Sample.stale))
  = [Permission.mkRow 1 "add_invoice" "Can add bill";
     Permission.mkRow 1 "change_invoice" "Can change invoice";
     Permission.mkRow 1 "delete_invoice" "Can delete invoice"].
Proof. reflexivity. Qed.

(** Why completeness asks for distinct natural keys: two registered classes
    with the same (app label, model name) share a content type and
    codenames, neither is found in [all_perms], and both are handed to
    [bulk_create]. *)
Example same_natural_key_twice :
  map row_key (inserted (create_permissions Sample.env_twice Sample.empty))
  = [(1, "add_invoice"); (1, "change_invoice"); (1, "delete_invoice");
     (1, "add_invoice"); (1, "change_invoice"); (1, "delete_invoice")]%string.
Proof. reflexivity. Qed.

(** * Further properties of the handler *)

(** ** Runs that reach their end *)

(** A run that reaches its end, taken apart: the loop finished, the second
    check found nothing, and the calls were made in this order. *)
Lemma completed_run env db :
  value (create_permissions env db) = inr tt ->
  exists P sp cs,
    eligible env = true
    /\ auth_Permission env = Some P
    /\ value (for_klass (max_length P - 11) (get_mongo_models (site_registry env))
                [] [] db) = inr (sp, cs)
    /\ find (name_too_long (max_length P))
            (missing_perms sp (permissions_in cs (permissions db))) = None
    /\ final (create_permissions env db)
       = mkDB (content_types
                 (final (for_klass (max_length P - 11)
                           (get_mongo_models (site_registry env)) [] [] db)))
              (permissions db
                 ++ map Permission.to_row
                      (missing_perms sp (permissions_in cs (permissions db))))
    /\ events (create_permissions env db)
       = GetModel :: AllowMigrateModel
           :: map GetForModel (get_mongo_models (site_registry env))
           ++ FilterPermissions cs
           :: BulkCreate (missing_perms sp (permissions_in cs (permissions db)))
           :: (if verbosity env >=? 2
               then map Print (missing_perms sp (permissions_in cs (permissions db)))
               else []).
Proof.
  intros Hend.
  destruct (eligible env) eqn:Hel.
  2: { destruct (create_permissions_ineligible env db Hel) as (checks & Heq & _).
       rewrite Heq in Hend. discriminate. }
  destruct (eligible_inv env Hel) as (mm & P & Hmm & HP & Hallow).
  rewrite (create_permissions_eligible env db mm P Hmm HP Hallow) in *.
  cbv zeta in *.
  destruct (for_klass_frame (max_length P - 11) (get_mongo_models (site_registry env))
              [] [] db) as [Hperm _].
  destruct (value (for_klass _ _ _ _ db)) as [x | [sp cs]] eqn:Hv; [discriminate|].
  destruct (for_klass_ok _ _ _ _ _ _ _ Hv) as (_ & Hev & _).
  destruct (find _ _) eqn:Hfind; [discriminate|].
  exists P, sp, cs. cbn [final events]. rewrite Hev. rewrite Hperm in *. auto 10.
Qed.

(** Only a run that reaches its end inserts. *)
Lemma inserted_only_at_end env db :
  inserted (create_permissions env db) <> [] ->
  value (create_permissions env db) = inr tt.
Proof.
  intros Hins. unfold inserted in Hins.
  destruct (eligible env) eqn:Hel.
  - destruct (eligible_inv env Hel) as (mm & P & Hmm & HP & Hallow).
    rewrite (create_permissions_eligible env db mm P Hmm HP Hallow) in *.
    cbv zeta in *.
    pose proof (for_klass_inserts_nothing (max_length P - 11)
                  (get_mongo_models (site_registry env)) [] [] db) as Hnone.
    destruct (value (for_klass _ _ _ _ db)) as [x | [sp cs]].
    + exfalso. apply Hins. simpl. exact Hnone.
    + destruct (find _ _); [|reflexivity].
      exfalso. apply Hins. simpl. rewrite bulk_rows_app, Hnone. reflexivity.
  - destruct (create_permissions_ineligible env db Hel) as (checks & Heq & Hc).
    rewrite Heq in Hins. exfalso. apply Hins.
    destruct Hc as [-> | [-> | ->]]; reflexivity.
Qed.

Lemma bulk_rows_completed models cs perms (verbose : bool) :
  bulk_rows (GetModel :: AllowMigrateModel
               :: map GetForModel models
               ++ FilterPermissions cs :: BulkCreate perms
               :: (if verbose then map Print perms else []))
  = map Permission.to_row perms.
Proof.
  simpl. rewrite bulk_rows_app, bulk_rows_lookups. simpl.
  destruct verbose; rewrite ?bulk_rows_prints; simpl; now rewrite app_nil_r.
Qed.






(** ** What is inserted *)

(** X1. Every row a run inserts is the default row of some document model
    of the registry for one of the three actions, and its content type is a
    row of the content-type table the run leaves: nothing is inserted for a
    relational model or under another codename, and no row points to a
    missing content type. *)
Theorem inserted_rows_sound env db :
  Forall (fun row =>
            exists m a ct,
              In m (get_mongo_models (site_registry env))
              /\ In a actions
              /\ ctype_of (final (create_permissions env db)) m = Some ct
              /\ In ct (content_types (final (create_permissions env db)))
              /\ row = default_row ct a m)
         (inserted (create_permissions env db)).
Proof.
  destruct (inserted (create_permissions env db)) as [|r0 rest] eqn:Hins;
    [constructor|].
  assert (Hend : value (create_permissions env db) = inr tt)
    by (apply inserted_only_at_end; rewrite Hins; discriminate).
  rewrite <- Hins. clear Hins r0 rest.
  destruct (completed_run env db Hend) as (P & sp & cs & _ & _ & Hv & _ & Hfinal & Hev).
  unfold inserted. rewrite Hev, bulk_rows_completed, Hfinal.
  apply Forall_forall. intros row Hrow.
  apply in_map_iff in Hrow. destruct Hrow as ([cn nm ct] & <- & Hperm).
  apply missing_perms_In in Hperm. destruct Hperm as [Hsearched _]. simpl in Hsearched.
  destruct (searched_from_models _ _ _ _ _ _ _ _ Hv Hsearched) as (m & Hm & _ & Hct & Hdef).
  unfold get_default_permissions in Hdef. apply in_map_iff in Hdef.
  destruct Hdef as (a & Heq & Ha). injection Heq as <- <-.
  exists m, a, ct. repeat split; auto.
  apply (ctype_of_natural_key _ _ _ Hct).
Qed.

(** ** Reporting *)





(** X4. Verbosity only decides what is printed: at any verbosity the run
    ends the same way, leaves the same database and inserts the same
    rows. *)
Theorem verbosity_only_prints env db v :
  value (create_permissions (with_verbosity v env) db) = value (create_permissions env db)
  /\ final (create_permissions (with_verbosity v env) db)
     = final (create_permissions env db)
  /\ inserted (create_permissions (with_verbosity v env) db)
     = inserted (create_permissions env db).
Proof.
  unfold inserted.
  destruct (eligible env) eqn:Hel.
  - destruct (eligible_inv env Hel) as (mm & P & Hmm & HP & Hallow).
    rewrite (create_permissions_eligible env db mm P Hmm HP Hallow).
    rewrite (create_permissions_eligible (with_verbosity v env) db mm P Hmm HP Hallow).
    cbv zeta. cbn [with_verbosity site_registry verbosity].
    pose proof (for_klass_inserts_nothing (max_length P - 11)
                  (get_mongo_models (site_registry env)) [] [] db) as Hnone.
    destruct (value (for_klass _ _ _ _ db)) as [x | [sp cs]]; [auto|].
    destruct (find _ _); [auto|].
    cbn [value final events]. split; [reflexivity|]. split; [reflexivity|].
    simpl. rewrite !bulk_rows_app, Hnone. simpl.
    destruct (v >=? 2), (verbosity env >=? 2); now rewrite ?bulk_rows_prints.
  - assert (Hel' : eligible (with_verbosity v env) = false) by exact Hel.
    destruct (create_permissions_ineligible env db Hel) as (c1 & -> & H1).
    destruct (create_permissions_ineligible _ db Hel') as (c2 & -> & H2).
    cbn [value final events]. split; [reflexivity|]. split; [reflexivity|].
    destruct H1 as [-> | [-> | ->]], H2 as [-> | [-> | ->]]; reflexivity.
Qed.

(** ** How a run ends *)


(** X6. With a registry that holds no document model, a call that passes
    the eligibility checks runs to its end whatever the field length is,
    leaves the database as it was, queries the permissions of no content
    type and hands [bulk_create] an empty list. *)
Theorem no_document_models env db :
  eligible env = true ->
  (forall m, In m (keys (site_registry env)) ->
             isinstance_TopLevelDocumentMetaclass m = false) ->
  value (create_permissions env db) = inr tt
  /\ final (create_permissions env db) = db
  /\ events (create_permissions env db)
     = [GetModel; AllowMigrateModel; FilterPermissions []; BulkCreate []].
Proof.
  intros Hel Hnone.
  assert (Hmodels : get_mongo_models (site_registry env) = [])
    by (apply filter_none; exact Hnone).
  destruct (eligible_inv env Hel) as (mm & P & Hmm & HP & Hallow).
  rewrite (create_permissions_eligible env db mm P Hmm HP Hallow), Hmodels.
  simpl. destruct db as [cts perms]. simpl. rewrite app_nil_r.
  destruct (verbosity env >=? 2); auto.
Qed.

Lemma no_document_models_witness :
  eligible Sample.env_relational = true
  /\ final (create_permissions Sample.env_relational Sample.stale) = Sample.stale.
Proof.
  assert (H1 : eligible Sample.env_relational = true) by reflexivity.
  assert (H2 : forall m, In m (keys (site_registry Sample.env_relational)) ->
                         isinstance_TopLevelDocumentMetaclass m = false)
    by (intros m [<- | []]; reflexivity).
  split; [exact H1|].
  exact (proj1 (proj2 (no_document_models Sample.env_relational Sample.stale H1 H2))).
Defined.



(** X8. A run that raises at the second check has passed every document
    model through the first check and looked up all their content types;
    the permission it stops at is a missing default permission of a model
    whose untranslated verbose name is longer than its verbose name, and
    the whole batch is dropped: no permission row is inserted. *)
Theorem second_check_abort env db perm limit :
  value (create_permissions env db) = inl (Raise (PermissionNameTooLong perm limit)) ->
  exists P m a ct,
    auth_Permission env = Some P
    /\ limit = max_length P
    /\ In m (get_mongo_models (site_registry env))
    /\ In a actions
    /\ ctype_of (final (create_permissions env db)) m = Some ct
    /\ Permission.to_row perm = default_row ct a m
    /\ ~ In (row_key (Permission.to_row perm)) (map row_key (permissions db))
    /\ len (Permission.name perm) > limit
    /\ len (verbose_name_raw (_meta m)) > len (verbose_name (_meta m))
    /\ Forall (fun k => verbose_name_too_long (limit - 11) k = false)
              (get_mongo_models (site_registry env))
    /\ processed (create_permissions env db) = get_mongo_models (site_registry env)
    /\ inserted (create_permissions env db) = []
    /\ permissions (final (create_permissions env db)) = permissions db.
Proof.
  intros Hraise. unfold processed, inserted.
  destruct (eligible env) eqn:Hel.
  2: { destruct (create_permissions_ineligible env db Hel) as (checks & Heq & _).
       rewrite Heq in Hraise. discriminate. }
  destruct (eligible_inv env Hel) as (mm & P & Hmm & HP & Hallow).
  rewrite (create_permissions_eligible env db mm P Hmm HP Hallow) in *.
  cbv zeta in *.
  destruct (for_klass_frame (max_length P - 11) (get_mongo_models (site_registry env))
              [] [] db) as [Hperm _].
  destruct (value (for_klass _ _ _ _ db)) as [x | [sp cs]] eqn:Hv.
  { destruct (for_klass_raise _ _ _ _ _ _ Hv) as (_ & _ & _ & ct & _ & _ & _ & -> & _).
    discriminate. }
  destruct (find _ _) as [p|] eqn:Hfind; [|discriminate].
  cbn [value final events] in *. injection Hraise as Hp Hlimit. subst p limit.
  apply find_some in Hfind. destruct Hfind as [Hin Hlong].
  apply missing_perms_In in Hin. destruct Hin as [Hin Hnot].
  destruct perm as [cn nm ct].
  cbn [Permission.content_type Permission.codename Permission.name] in *.
  destruct (searched_from_models _ _ _ _ _ _ _ _ Hv Hin) as (m & Hm & Hfirst & Hct & Hdef).
  destruct (for_klass_ok _ _ _ _ _ _ _ Hv) as (Hall & Hev & _).
  destruct (default_permission_name_len _ _ _ Hdef) as (prefix & _ & Hname & Hpre).
  unfold get_default_permissions in Hdef. apply in_map_iff in Hdef.
  destruct Hdef as (a & Heq & Ha). injection Heq as Hcn Hnm.
  unfold name_too_long in Hlong.
  cbn [Permission.name] in Hlong. apply Z.gtb_lt in Hlong.
  unfold verbose_name_too_long in Hfirst. rewrite Z.gtb_ltb in Hfirst.
  apply Z.ltb_ge in Hfirst.
  exists P, m, a, ct.
  split; [exact HP|]. split; [reflexivity|]. split; [exact Hm|]. split; [exact Ha|].
  split; [exact Hct|].
  split; [unfold Permission.to_row, default_row; cbn; now rewrite Hcn, Hnm|].
  split.
  { intros Hold. apply Hnot. apply permissions_in_iff.
    apply in_map_iff in Hold. destruct Hold as (old & Hkey & Hold).
    exists old. rewrite Hperm. split; [assumption|]. split; [exact Hkey|].
    cbn [fst]. eapply searched_in_ctypes; eassumption. }
  split; [lia|].
  split; [rewrite Hname, len_append in Hlong; lia|].
  split; [exact Hall|].
  split; [simpl; now rewrite lookups_app, Hev, lookups_lookups, app_nil_r|].
  split; [simpl; rewrite bulk_rows_app, Hev, bulk_rows_lookups; reflexivity|].
  exact Hperm.
Qed.

Lemma second_check_abort_witness :
  value (create_permissions Sample.env_raw_long Sample.empty)
  = inl (Raise (PermissionNameTooLong
                  (Permission.mk "change_order"
                                 "Can change international purchase order confirmation"
                                 (ContentType.mk 2 "billing" "order"))
                  50))
  /\ content_types (final (create_permissions Sample.env_raw_long Sample.empty))
     = [ContentType.mk 1 "billing" "invoice"; ContentType.mk 2 "billing" "order"]
  /\ exists P m ct,
       auth_Permission Sample.env_raw_long = Some P
       /\ In m (get_mongo_models (site_registry Sample.env_raw_long))
       /\ ctype_of (final (create_permissions Sample.env_raw_long Sample.empty)) m = Some ct
       /\ len (verbose_name_raw (_meta m)) > len (verbose_name (_meta m))
       /\ inserted (create_permissions Sample.env_raw_long Sample.empty) = [].
Proof.
  split; [reflexivity|]. split; [reflexivity|].
  destruct (second_check_abort Sample.env_raw_long Sample.empty _ _ eq_refl)
    as (P & m & a & ct & H1 & _ & H2 & _ & H3 & _ & _ & _ & H4 & _ & _ & H5 & _).
  exists P, m, ct. auto.
Defined.

(** ** Databases that are already reconciled, and databases that are new *)

Lemma for_klass_all_found limit models : forall sp cs db,
  (forall k, In k models -> ctype_of db k <> None) ->
  final (for_klass limit models sp cs db) = db.
Proof.
  induction models as [|klass rest IH]; intros sp cs db Hall; [reflexivity|].
  destruct (ctype_of db klass) as [ct|] eqn:Hct;
    [|exfalso; apply (Hall klass); [now left | assumption]].
  destruct (for_klass_cons limit klass rest sp cs db) as (ct' & Hv & ->).
  rewrite (get_for_model_found _ _ _ Hct) in *. injection Hv as <-.
  destruct (verbose_name_too_long limit klass); cbv zeta; cbn [final]; [reflexivity|].
  apply IH. intros k Hk. apply Hall. now right.
Qed.

(** X9. A database that already has, for every document model, its content
    type and a permission row under each of the three codenames is left
    exactly as it is by a call that passes the eligibility checks and the
    first length check: nothing is inserted, and the display names, which
    are neither compared nor measured for rows that exist, cannot make the
    run raise. *)
Theorem reconciled_database_untouched env db P :
  eligible env = true ->
  auth_Permission env = Some P ->
  (forall m, In m (get_mongo_models (site_registry env)) ->
             len (verbose_name (_meta m)) <= max_length P - 11
             /\ exists ct,
                  ctype_of db m = Some ct
                  /\ forall a, In a actions ->
                       In (ContentType.pk ct, get_permission_codename a (_meta m))
                          (map row_key (permissions db))) ->
  value (create_permissions env db) = inr tt
  /\ final (create_permissions env db) = db
  /\ inserted (create_permissions env db) = [].
Proof.
  intros Hel HP Hall. unfold inserted.
  destruct (eligible_inv env Hel) as (mm & P' & Hmm & HP' & Hallow).
  rewrite HP in HP'. injection HP' as <-.
  rewrite (create_permissions_eligible env db mm P Hmm HP Hallow). cbv zeta.
  set (models := get_mongo_models (site_registry env)) in *.
  assert (Hsame : final (for_klass (max_length P - 11) models [] [] db) = db).
  { apply for_klass_all_found. intros k Hk.
    destruct (Hall k Hk) as (_ & ct & -> & _). discriminate. }
  pose proof (for_klass_inserts_nothing (max_length P - 11) models [] [] db) as Hnone.
  destruct (value (for_klass _ models _ _ db)) as [x | [sp cs]] eqn:Hv.
  { exfalso.
    destruct (for_klass_raise _ _ _ _ _ _ Hv) as (pre & k & post & ct & Hsplit & _ & Hk & _).
    assert (Hin : In k models)
      by (rewrite Hsplit; apply in_or_app; right; now left).
    destruct (Hall k Hin) as [Hle _].
    unfold verbose_name_too_long in Hk. apply Z.gtb_lt in Hk. lia. }
  rewrite Hsame.
  assert (Hmissing : missing_perms sp (permissions_in cs (permissions db)) = []).
  { unfold missing_perms. rewrite filter_none; [reflexivity|].
    intros [ct [cn nm]] Hin. apply negb_false_iff, in_all_perms_iff.
    destruct (searched_from_models _ _ _ _ _ _ _ _ Hv Hin) as (k & Hk & _ & Hct & Hdef).
    rewrite Hsame in Hct.
    destruct (Hall k Hk) as (_ & ct' & Hct' & Hrows).
    rewrite Hct in Hct'. injection Hct' as <-.
    unfold get_default_permissions in Hdef. apply in_map_iff in Hdef.
    destruct Hdef as (a & Heq & Ha). injection Heq as <- _.
    specialize (Hrows a Ha). apply in_map_iff in Hrows.
    destruct Hrows as (r & Hkey & Hr).
    apply permissions_in_iff. exists r. split; [assumption|]. split; [exact Hkey|].
    cbn [fst]. eapply searched_in_ctypes; eassumption. }
  rewrite Hmissing. cbn [find map value final events].
  rewrite app_nil_r. destruct db as [cts perms]. cbn [content_types permissions].
  split; [reflexivity|]. split; [reflexivity|].
  simpl. rewrite bulk_rows_app, Hnone. simpl.
  destruct (verbosity env >=? 2); reflexivity.
Qed.

Lemma reconciled_database_untouched_witness :
  eligible Sample.env_order = true
  /\ len ("Can change " ++ verbose_name_raw (_meta Sample.Order))%string > 50
  /\ final (create_permissions Sample.env_order Sample.reconciled) = Sample.reconciled.
Proof.
  assert (H1 : eligible Sample.env_order = true) by reflexivity.
  assert (H2 : forall m, In m (get_mongo_models (site_registry Sample.env_order)) ->
                 len (verbose_name (_meta m)) <= max_length Sample.auth_Permission_50 - 11
                 /\ exists ct,
                      ctype_of Sample.reconciled m = Some ct
                      /\ forall a, In a actions ->
                           In (ContentType.pk ct, get_permission_codename a (_meta m))
                              (map row_key (permissions Sample.reconciled))).
  { intros m [<- | []]. split; [vm_compute; discriminate|].
    eexists. split; [reflexivity|].
    intros a [<- | [<- | [<- | []]]]; simpl; auto. }
  split; [exact H1|]. split; [reflexivity|].
  exact (proj1 (proj2 (reconciled_database_untouched Sample.env_order Sample.reconciled
                         Sample.auth_Permission_50 H1 eq_refl H2))).
Defined.

(** The content types a finished loop has in [ctypes] are those it started
    with and those of its classes. *)
Lemma for_klass_ctypes limit models : forall sp cs db sp' cs',
  value (for_klass limit models sp cs db) = inr (sp', cs') ->
  forall id, pk_in id cs' = true ->
    pk_in id cs = true
    \/ exists k ct, In k models
                    /\ ctype_of (final (for_klass limit models sp cs db)) k = Some ct
                    /\ ContentType.pk ct = id.
Proof.
  induction models as [|klass rest IH]; intros sp cs db sp' cs'.
  - simpl. intros [= <- <-] id Hid. now left.
  - loop_step limit klass rest sp cs db ct.
    destruct (verbose_name_too_long limit klass);
      cbv zeta; cbn [value final events]; [discriminate|].
    intros Hval id Hid.
    set (sp1 := sp ++ map (fun perm => (ct, perm)) (get_default_permissions (_meta klass))) in *.
    set (db1 := final (get_for_model klass db)) in *.
    destruct (for_klass_frame limit rest sp1 (ctypes_add ct cs) db1) as [_ Hext1].
    destruct (IH sp1 (ctypes_add ct cs) db1 sp' cs' Hval id Hid) as [Hold | Hnew].
    + rewrite pk_in_add in Hold. apply orb_true_iff in Hold.
      destruct Hold as [Hold | Heq]; [now left|].
      right. exists klass, ct. apply Z.eqb_eq in Heq.
      split; [now left|]. split; [|assumption].
      eapply ctype_of_extends; eassumption.
    + right. destruct Hnew as (k & c & Hk & Hc & Hpk).
      exists k, c. split; [now right | auto].
Qed.

Lemma missing_perms_nil sp :
  missing_perms sp [] = map (fun '(ct, (codename, name)) => Permission.mk codename name ct) sp.
Proof.
  unfold missing_perms. f_equal.
  rewrite (filter_ext _ (fun _ => true)); [apply filter_true|].
  intros [ct [cn nm]]. reflexivity.
Qed.

Lemma rows_of_searched db models :
  map Permission.to_row
      (map (fun '(ct, (codename, name)) => Permission.mk codename name ct)
           (flat_map (searched_for db) models))
  = flat_map (expected_rows db) models.
Proof.
  induction models as [|m models IH]; [reflexivity|].
  cbn [flat_map]. rewrite !map_app, IH. f_equal.
  unfold searched_for, expected_rows. destruct (ctype_of db m); reflexivity.
Qed.

Lemma expected_rows_length db models :
  (forall k, In k models -> ctype_of db k <> None) ->
  List.length (flat_map (expected_rows db) models) = (3 * List.length models)%nat.
Proof.
  induction models as [|m models IH]; intros Hall; [reflexivity|].
  cbn [flat_map]. rewrite length_app, IH by (intros; apply Hall; now right).
  unfold expected_rows. destruct (ctype_of db m) eqn:Hct.
  - simpl. lia.
  - exfalso. apply (Hall m); [now left | assumption].
Qed.

(** X10. When no permission row of the table refers to the content type of
    a registered document model, a run that reaches its end inserts, for
    each document model in iteration order, its three rows in the order
    add, change, delete: three times as many rows as there are document
    models. *)
Theorem fresh_models_get_all_rows env db :
  value (create_permissions env db) = inr tt ->
  (forall r m ct,
      In r (permissions db) ->
      In m (get_mongo_models (site_registry env)) ->
      ctype_of (final (create_permissions env db)) m = Some ct ->
      Permission.content_type_id r <> ContentType.pk ct) ->
  inserted (create_permissions env db)
  = flat_map (expected_rows (final (create_permissions env db)))
             (get_mongo_models (site_registry env))
  /\ List.length (inserted (create_permissions env db))
     = (3 * List.length (get_mongo_models (site_registry env)))%nat.
Proof.
  intros Hend Hfresh.
  destruct (completed_run env db Hend) as (P & sp & cs & _ & _ & Hv & _ & Hfinal & Hev).
  set (models := get_mongo_models (site_registry env)) in *.
  set (r1 := for_klass (max_length P - 11) models [] [] db) in *.
  destruct (for_klass_ok _ _ _ _ _ _ _ Hv) as (_ & _ & Hsp & Hcs & _).
  fold r1 in Hsp, Hcs. simpl in Hsp.
  assert (Hct : forall k, ctype_of (final (create_permissions env db)) k
                          = ctype_of (final r1) k)
    by (intros k; rewrite Hfinal; reflexivity).
  assert (Hrows : forall l, flat_map (expected_rows (final (create_permissions env db))) l
                            = flat_map (expected_rows (final r1)) l).
  { intros l. apply flat_map_ext. intros k. unfold expected_rows. now rewrite Hct. }
  assert (Hall : permissions_in cs (permissions db) = []).
  { unfold permissions_in. rewrite filter_none; [reflexivity|].
    intros r Hr. destruct (pk_in (Permission.content_type_id r) cs) eqn:Hin; [|reflexivity].
    exfalso.
    destruct (for_klass_ctypes _ _ _ _ _ _ _ Hv _ Hin) as [Hnil | (k & ct & Hk & Hc & Hpk)];
      [discriminate|].
    fold r1 in Hc. rewrite <- Hct in Hc.
    exact (Hfresh r k ct Hr Hk Hc (eq_sym Hpk)). }
  assert (Hins : inserted (create_permissions env db)
                 = flat_map (expected_rows (final r1)) models).
  { unfold inserted. rewrite Hev, bulk_rows_completed, Hall, missing_perms_nil, Hsp.
    apply rows_of_searched. }
  rewrite Hrows, Hins. split; [reflexivity|].
  apply expected_rows_length. intros k Hk.
  destruct (Hcs k Hk) as (ct & -> & _). discriminate.
Qed.

Lemma fresh_models_get_all_rows_witness :
  value (create_permissions Sample.env Sample.reconciled) = inr tt
  /\ inserted (create_permissions Sample.env Sample.reconciled)
     = [Permission.mkRow 3 "add_invoice" "Can add invoice";
        Permission.mkRow 3 "change_invoice" "Can change invoice";
        Permission.mkRow 3 "delete_invoice" "Can delete invoice"].
Proof.
  assert (H : forall r m ct,
             In r (permissions Sample.reconciled) ->
             In m (get_mongo_models (site_registry Sample.env)) ->
             ctype_of (final (create_permissions Sample.env Sample.reconciled)) m = Some ct ->
             Permission.content_type_id r <> ContentType.pk ct).
  { intros r m ct Hr [<- | []] Hct. vm_compute in Hct. injection Hct as <-.
    simpl in Hr. destruct Hr as [<- | [<- | [<- | [<- | []]]]]; discriminate. }
  split; [reflexivity|].
  exact (proj1 (fresh_models_get_all_rows Sample.env Sample.reconciled eq_refl H)).
Defined.

(** ** The content-type table *)

Lemma ctype_of_none_not_in db klass :
  ctype_of db klass = None ->
  ~ In (natural_key klass) (map ct_natural_key (content_types db)).
Proof.
  unfold ctype_of, get_content_type. intros Hnone Hin.
  apply in_map_iff in Hin. destruct Hin as (c & Hkey & Hc).
  pose proof (find_none _ _ Hnone c Hc) as Hno.
  unfold ct_natural_key, natural_key in Hkey. injection Hkey as Hl Hm.
  unfold natural_key_eqb in Hno. now rewrite Hl, Hm, !String.eqb_refl in Hno.
Qed.

Lemma ctype_of_none_before db' db klass :
  extends db' db -> ctype_of db' klass = None -> ctype_of db klass = None.
Proof.
  intros Hext Hnone. destruct (ctype_of db klass) as [ct|] eqn:Hct; [|reflexivity].
  rewrite (ctype_of_extends _ _ _ _ Hext Hct) in Hnone. discriminate.
Qed.

Lemma get_for_model_natural_key_unique klass db :
  natural_key_unique db -> natural_key_unique (final (get_for_model klass db)).
Proof.
  unfold natural_key_unique, get_for_model. intros Hu.
  destruct (get_content_type _ _ (content_types db)) eqn:Hget; simpl; [assumption|].
  rewrite map_app. apply NoDup_app; [assumption | repeat constructor; intros [] |].
  simpl. intros key Hin [<- | []].
  exact (ctype_of_none_not_in db klass Hget Hin).
Qed.

Lemma for_klass_natural_key_unique limit models : forall sp cs db,
  natural_key_unique db -> natural_key_unique (final (for_klass limit models sp cs db)).
Proof.
  induction models as [|klass rest IH]; intros sp cs db Hu; [assumption|].
  destruct (for_klass_cons limit klass rest sp cs db) as (ct & _ & ->).
  pose proof (get_for_model_natural_key_unique klass db Hu).
  destruct (verbose_name_too_long limit klass); cbv zeta; cbn [final]; auto.
Qed.

(** The content-type table after a run is the one before it or the one the
    loop leaves. *)
Lemma final_content_types env db :
  content_types (final (create_permissions env db)) = content_types db
  \/ exists P,
       content_types (final (create_permissions env db))
       = content_types (final (for_klass (max_length P - 11)
                                 (get_mongo_models (site_registry env)) [] [] db)).
Proof.
  destruct (eligible env) eqn:Hel.
  - destruct (eligible_inv env Hel) as (mm & P & Hmm & HP & Hallow).
    rewrite (create_permissions_eligible env db mm P Hmm HP Hallow). cbv zeta.
    right. exists P.
    destruct (value (for_klass _ _ _ _ db)) as [x | [sp cs]]; [reflexivity|].
    destruct (find _ _); reflexivity.
  - destruct (create_permissions_ineligible env db Hel) as (checks & -> & _).
    now left.
Qed.

(** X11. A run only appends to the content-type table and keeps it well
    formed: rows that were there stay, at their place; if primary keys were
    unique they still are; and if no two rows shared (app label, model) none
    do afterwards, so no content type is created twice. *)
Theorem content_types_stay_well_formed env db :
  extends (final (create_permissions env db)) db
  /\ (pk_unique db -> pk_unique (final (create_permissions env db)))
  /\ (natural_key_unique db -> natural_key_unique (final (create_permissions env db))).
Proof.
  split; [apply create_permissions_tables|].
  split; [apply create_permissions_pk_unique|].
  intros Hu. unfold natural_key_unique.
  destruct (final_content_types env db) as [-> | [P ->]]; [exact Hu|].
  now apply for_klass_natural_key_unique.
Qed.

Lemma content_types_stay_well_formed_witness :
  pk_unique Sample.reconciled
  /\ natural_key_unique Sample.reconciled
  /\ content_types (final (create_permissions Sample.env_raw_long Sample.reconciled))
     = content_types Sample.reconciled ++ [ContentType.mk 3 "billing" "invoice"]
  /\ pk_unique (final (create_permissions Sample.env_raw_long Sample.reconciled))
  /\ natural_key_unique (final (create_permissions Sample.env_raw_long Sample.reconciled)).
Proof.
  assert (H1 : pk_unique Sample.reconciled).
  { unfold pk_unique. simpl. repeat constructor; simpl; intuition discriminate. }
  assert (H2 : natural_key_unique Sample.reconciled).
  { unfold natural_key_unique. simpl. repeat constructor; simpl; intuition discriminate. }
  destruct (content_types_stay_well_formed Sample.env_raw_long Sample.reconciled)
    as (_ & Hpk & Hnk).
  split; [exact H1|]. split; [exact H2|]. split; [reflexivity|].
  split; [exact (Hpk H1) | exact (Hnk H2)].
Defined.

Lemma get_for_model_new klass db c :
  In c (content_types (final (get_for_model klass db))) ->
  In c (content_types db)
  \/ (ct_natural_key c = natural_key klass /\ ctype_of db klass = None).
Proof.
  unfold get_for_model, ctype_of.
  destruct (get_content_type _ _ (content_types db)) eqn:Hget; simpl; [now left|].
  intros Hin. apply in_app_or in Hin. destruct Hin as [Hin | [<- | []]]; [now left|].
  right. split; reflexivity.
Qed.

Lemma for_klass_new limit models : forall sp cs db c,
  In c (content_types (final (for_klass limit models sp cs db))) ->
  In c (content_types db)
  \/ exists k, In k models /\ ct_natural_key c = natural_key k /\ ctype_of db k = None.
Proof.
  induction models as [|klass rest IH]; intros sp cs db c; [now left|].
  destruct (for_klass_cons limit klass rest sp cs db) as (ct & _ & ->).
  destruct (get_for_model_run klass db) as (_ & _ & _ & _ & Hext & _).
  assert (Hstep : In c (content_types (final (get_for_model klass db))) ->
            In c (content_types db)
            \/ exists k, In k (klass :: rest)
                         /\ ct_natural_key c = natural_key k /\ ctype_of db k = None).
  { intros Hin. destruct (get_for_model_new klass db c Hin) as [Hold | [Hkey Hnone]];
      [now left|].
    right. exists klass. split; [now left | auto]. }
  destruct (verbose_name_too_long limit klass); cbv zeta; cbn [final]; [exact Hstep|].
  intros Hin. apply IH in Hin. destruct Hin as [Hin | (k & Hk & Hkey & Hnone)]; [auto|].
  right. exists k. split; [now right|]. split; [assumption|].
  eapply ctype_of_none_before; eassumption.
Qed.

(** X12. Every content-type row a run adds carries the (app label, model
    name) of a document model of the registry that had no content type
    before the run: none is created for a relational model registered with
    the same site, or for a model that already has one. *)
Theorem content_types_added_for_documents env db :
  Forall (fun c =>
            In c (content_types db)
            \/ exists m,
                 In m (keys (site_registry env))
                 /\ isinstance_TopLevelDocumentMetaclass m = true
                 /\ ct_natural_key c = natural_key m
                 /\ ctype_of db m = None)
         (content_types (final (create_permissions env db))).
Proof.
  apply Forall_forall. intros c Hc.
  destruct (final_content_types env db) as [Heq | [P Heq]]; rewrite Heq in Hc; [now left|].
  apply for_klass_new in Hc. destruct Hc as [Hc | (k & Hk & Hkey & Hnone)]; [now left|].
  right. exists k. apply filter_In in Hk. destruct Hk as [Hk Hdoc]. auto.
Qed.

(** ** Default permissions *)

(** X13. The three default permissions of a model have pairwise distinct
    codenames, and a codename determines the model name: default
    permissions of models with different model names never share one. *)
Theorem default_codenames_distinct opts opts' :
  NoDup (map fst (get_default_permissions opts))
  /\ (forall p p',
        In p (get_default_permissions opts) ->
        In p' (get_default_permissions opts') ->
        fst p = fst p' ->
        model_name opts = model_name opts').
Proof.
  split.
  - unfold get_default_permissions, actions, get_permission_codename. simpl.
    repeat constructor; simpl; intros H;
      repeat (destruct H as [H | H]; [discriminate H|]); exact H.
  - intros p p' Hp Hp' Heq.
    unfold get_default_permissions in Hp, Hp'.
    apply in_map_iff in Hp, Hp'.
    destruct Hp as (a & <- & Ha), Hp' as (a' & <- & Ha'). simpl in Heq.
    apply (get_permission_codename_inj _ _ _ _ Ha Ha' Heq).
Qed.

Lemma default_codenames_distinct_witness :
  In ("delete_invoice", "Can delete invoice")%string
     (get_default_permissions (_meta Sample.Invoice))
  /\ In ("delete_invoice", "Can delete invoice (old)")%string
        (get_default_permissions (_meta Sample.InvoiceAgain))
  /\ model_name (_meta Sample.Invoice) = model_name (_meta Sample.InvoiceAgain).
Proof.
  assert (H1 : In ("delete_invoice", "Can delete invoice")%string
                  (get_default_permissions (_meta Sample.Invoice)))
    by (simpl; auto).
  assert (H2 : In ("delete_invoice", "Can delete invoice (old)")%string
                  (get_default_permissions (_meta Sample.InvoiceAgain)))
    by (simpl; auto).
  split; [exact H1|]. split; [exact H2|].
  exact (proj2 (default_codenames_distinct (_meta Sample.Invoice)
                  (_meta Sample.InvoiceAgain)) _ _ H1 H2 eq_refl).
Defined.

(** * Further properties of the substitution *)

(** ** Version texts *)

Lemma span_digits_spec s : forall ds tl,
  StrictVersion.span_digits s = (ds, tl) ->
  s = (ds ++ tl)%string
  /\ Forall (fun c => StrictVersion.is_digit c = true) (list_ascii_of_string ds).
Proof.
  induction s as [|c s IH]; intros ds tl; simpl.
  - intros [= <- <-]. split; [reflexivity | constructor].
  - destruct (StrictVersion.is_digit c) eqn:Hc.
    + destruct (StrictVersion.span_digits s) as [ds' tl'].
      intros [= <- <-]. destruct (IH ds' tl' eq_refl) as [-> Hall].
      split; [reflexivity|]. simpl. constructor; assumption.
    + intros [= <- <-]. split; [reflexivity | constructor].
Qed.

Lemma int_nonneg ds :
  Forall (fun c => StrictVersion.is_digit c = true) (list_ascii_of_string ds) ->
  0 <= StrictVersion.int ds.
Proof.
  unfold StrictVersion.int.
  assert (Hgen : forall l acc,
             Forall (fun c => StrictVersion.is_digit c = true) l -> 0 <= acc ->
             0 <= fold_left (fun acc c => 10 * acc + (Z.of_nat (nat_of_ascii c) - 48)) l acc).
  { induction l as [|c l IH]; intros acc Hall Hacc; [assumption|].
    cbn [fold_left]. inversion Hall as [|? ? Hc Hl]; subst. apply IH; [assumption|].
    unfold StrictVersion.is_digit in Hc. apply andb_true_iff in Hc.
    destruct Hc as [Hlo _]. apply Nat.leb_le in Hlo. lia. }
  intros Hall. apply Hgen; [assumption | lia].
Qed.

Lemma number_spec s n tl :
  StrictVersion.number s = Some (n, tl) ->
  0 <= n
  /\ exists ds, s = (ds ++ tl)%string
                /\ Forall (fun c => StrictVersion.is_digit c = true)
                          (list_ascii_of_string ds).
Proof.
  unfold StrictVersion.number.
  destruct (StrictVersion.span_digits s) as [ds tl'] eqn:Hspan.
  destruct (span_digits_spec s ds tl' Hspan) as [Hs Hall].
  destruct ds as [|c ds]; [discriminate|].
  intros [= <- <-]. split; [now apply int_nonneg|]. exists (String c ds). auto.
Qed.

Lemma list_ascii_app s t :
  list_ascii_of_string (s ++ t) = list_ascii_of_string s ++ list_ascii_of_string t.
Proof. induction s as [|c s IH]; simpl; congruence. Qed.

Lemma digits_are_version_chars l :
  Forall (fun c => StrictVersion.is_digit c = true) l ->
  Forall (fun c => version_char c = true) l.
Proof.
  apply Forall_impl. intros c Hc. unfold version_char. now rewrite Hc.
Qed.

Lemma at_end_version_chars s :
  StrictVersion.at_end s = true ->
  Forall (fun c => version_char c = true) (list_ascii_of_string s).
Proof.
  destruct s as [|c [|c' s]]; simpl; try discriminate; [constructor|].
  intros Hc. repeat constructor. unfold version_char. rewrite Hc.
  now rewrite !orb_true_r.
Qed.

Lemma parse_prerelease_spec ver s v :
  StrictVersion.parse_prerelease ver s = Some v ->
  StrictVersion.version v = ver
  /\ Forall (fun c => version_char c = true) (list_ascii_of_string s).
Proof.
  unfold StrictVersion.parse_prerelease.
  destruct s as [|c tl]; [intros [= <-]; split; [reflexivity | constructor]|].
  destruct ((nat_of_ascii c =? 97) || (nat_of_ascii c =? 98))%nat eqn:Hab.
  - destruct (StrictVersion.number tl) as [[n tl']|] eqn:Hnum; [|discriminate].
    destruct (StrictVersion.at_end tl') eqn:Hend; [|discriminate].
    intros [= <-]. split; [reflexivity|].
    destruct (number_spec _ _ _ Hnum) as (_ & ds & -> & Hds).
    simpl. constructor.
    + unfold version_char. apply orb_true_iff in Hab.
      destruct Hab as [-> | ->]; now rewrite ?orb_true_r.
    + rewrite list_ascii_app. apply Forall_app.
      split; [now apply digits_are_version_chars | now apply at_end_version_chars].
  - destruct (StrictVersion.at_end (String c tl)) eqn:Hend; [|discriminate].
    intros [= <-]. split; [reflexivity | now apply at_end_version_chars].
Qed.

Ltac not_a_dot c Hne :=
  let H := fresh in
  intros H; exfalso; revert H;
  destruct c as [[] [] [] [] [] [] [] []]; try discriminate;
  exfalso; apply Hne; reflexivity.

(** A text [StrictVersion] accepts is written with version characters only,
    and its numbers are not negative. *)
Lemma parse_spec s v :
  StrictVersion.parse s = Some v ->
  Forall (fun c => version_char c = true) (list_ascii_of_string s)
  /\ (let '(major, minor, patch) := StrictVersion.version v in
      0 <= major /\ 0 <= minor /\ 0 <= patch).
Proof.
  unfold StrictVersion.parse.
  destruct (StrictVersion.number s) as [[major r1]|] eqn:H1; [|discriminate].
  destruct (number_spec _ _ _ H1) as (Hmajor & d1 & -> & Hd1).
  destruct r1 as [|c1 tl]; [discriminate|].
  destruct (Ascii.ascii_dec c1 "."%char) as [-> | Hne1]; [|not_a_dot c1 Hne1].
  assert (Hdot : version_char "."%char = true) by reflexivity.
  destruct (StrictVersion.number tl) as [[minor r2]|] eqn:H2; [|discriminate].
  destruct (number_spec _ _ _ H2) as (Hminor & d2 & -> & Hd2).
  assert (Hhead : forall rest,
             Forall (fun c => version_char c = true) (list_ascii_of_string rest) ->
             Forall (fun c => version_char c = true)
                    (list_ascii_of_string (d1 ++ String "." (d2 ++ rest)))).
  { intros rest Hrest. rewrite list_ascii_app. simpl. rewrite list_ascii_app.
    apply Forall_app. split; [now apply digits_are_version_chars|].
    constructor; [exact Hdot|]. apply Forall_app.
    split; [now apply digits_are_version_chars | assumption]. }
  assert (Hshort : forall rest,
             StrictVersion.parse_prerelease (major, minor, 0) rest = Some v ->
             Forall (fun c => version_char c = true)
                    (list_ascii_of_string (d1 ++ String "." (d2 ++ rest)))
             /\ (let '(major, minor, patch) := StrictVersion.version v in
                 0 <= major /\ 0 <= minor /\ 0 <= patch)).
  { intros rest Hp. destruct (parse_prerelease_spec _ _ _ Hp) as [-> Hrest].
    split; [now apply Hhead | lia]. }
  destruct r2 as [|c2 tl2]; [apply Hshort|].
  destruct (Ascii.ascii_dec c2 "."%char) as [-> | Hne2].
  - destruct (StrictVersion.number tl2) as [[patch r3]|] eqn:H3; [|discriminate].
    destruct (number_spec _ _ _ H3) as (Hpatch & d3 & -> & Hd3).
    intros Hp. destruct (parse_prerelease_spec _ _ _ Hp) as [-> Hrest].
    split; [|lia]. apply Hhead. simpl. constructor; [exact Hdot|].
    rewrite list_ascii_app. apply Forall_app.
    split; [now apply digits_are_version_chars | assumption].
  - intros Hp. apply Hshort.
    destruct c2 as [[] [] [] [] [] [] [] []];
      first [exact Hp | exfalso; apply Hne2; reflexivity].
Qed.

(** ** When the import fails *)



(** ** Which attribute a version selects *)

Lemma lt_threshold_iff v :
  (let '(_, _, patch) := StrictVersion.version v in 0 <= patch) ->
  StrictVersion.lt v threshold = true <-> before_1_9 v.
Proof.
  rewrite below_threshold. unfold before_1_9, StrictVersion.compare_version.
  destruct (StrictVersion.version v) as [[major minor] patch]. intros Hpatch.
  destruct (Z.compare_spec major 1) as [Ha | Ha | Ha],
           (Z.compare_spec minor 9) as [Hb | Hb | Hb],
           (Z.compare_spec patch 0) as [Hc | Hc | Hc];
    split; intros Hx; intuition (try discriminate; try lia).
Qed.

(** X15. With the override on and a version text [StrictVersion] accepts,
    the versions before 1.9 (a smaller major.minor, or an alpha or beta of
    1.9 or 1.9.0) have [django.contrib.admin.site] replaced and
    [django.contrib.admin.sites.site] left alone; all other versions, 1.9
    and 1.9.0 themselves, 1.9.1 and its pre-releases, 1.10 and later, have
    [django.contrib.admin.sites.site] replaced and
    [django.contrib.admin.site] left alone. The numbers are compared as
    numbers: 1.10 comes after 1.9. *)
Theorem path_by_version_numbers settings django_version site p v :
  Substitution.override_admin settings = true ->
  StrictVersion.parse django_version = Some v ->
  exists p',
    Substitution.module_body settings django_version site p = inr p'
    /\ (before_1_9 v ->
        Substitution.django_contrib_admin_site p' = site
        /\ Substitution.django_contrib_admin_sites_site p'
           = Substitution.django_contrib_admin_sites_site p)
    /\ (~ before_1_9 v ->
        Substitution.django_contrib_admin_sites_site p' = site
        /\ Substitution.django_contrib_admin_site p'
           = Substitution.django_contrib_admin_site p).
Proof.
  intros Hflag Hparse.
  rewrite (module_body_override settings django_version site p v Hflag Hparse).
  eexists. split; [reflexivity|].
  assert (Hiff : StrictVersion.lt v threshold = true <-> before_1_9 v).
  { apply lt_threshold_iff. destruct (parse_spec _ _ Hparse) as [_ Hpos].
    destruct (StrictVersion.version v) as [[major minor] patch]. lia. }
  unfold path_for. cbn [Substitution.django_contrib_admin_site
                         Substitution.django_contrib_admin_sites_site].
  destruct (StrictVersion.lt v threshold); split; intros H; auto.
  - exfalso. apply H. now apply Hiff.
  - apply Hiff in H. discriminate.
Qed.

Lemma path_by_version_numbers_witness :
  StrictVersion.parse "1.10" = Some (StrictVersion.mk (1, 10, 0) None)
  /\ ~ before_1_9 (StrictVersion.mk (1, 10, 0) None)
  /\ exists p',
       Substitution.module_body Sample.override_on "1.10" 1%nat Sample.process = inr p'
       /\ Substitution.django_contrib_admin_sites_site p' = 1%nat
       /\ Substitution.django_contrib_admin_site p' = 0%nat.
Proof.
  assert (H1 : Substitution.override_admin Sample.override_on = true) by reflexivity.
  assert (H2 : StrictVersion.parse "1.10" = Some (StrictVersion.mk (1, 10, 0) None))
    by reflexivity.
  assert (H3 : ~ before_1_9 (StrictVersion.mk (1, 10, 0) None))
    by (unfold before_1_9; simpl; lia).
  split; [exact H2|]. split; [exact H3|].
  destruct (path_by_version_numbers Sample.override_on "1.10" 1%nat Sample.process _ H1 H2)
    as (p' & Hrun & _ & Hafter).
  exists p'. split; [exact Hrun|]. exact (Hafter H3).
Defined.

(** ** Running the module again *)

(** X16. Running the module body a second time on the process it left, as a
    reload of the package does, succeeds and changes nothing: both
    attributes, every dict and the registry of every site object are as
    the first run left them. *)
Theorem substitution_twice settings django_version site p p' :
  Substitution.module_body settings django_version site p = inr p' ->
  exists p'',
    Substitution.module_body settings django_version site p' = inr p''
    /\ Substitution.django_contrib_admin_site p''
       = Substitution.django_contrib_admin_site p'
    /\ Substitution.django_contrib_admin_sites_site p''
       = Substitution.django_contrib_admin_sites_site p'
    /\ Substitution.dicts p'' = Substitution.dicts p'
    /\ (forall obj, Substitution.sites p'' obj = Substitution.sites p' obj).
Proof.
  intros Hrun.
  destruct (Substitution.override_admin settings) eqn:Hflag.
  - destruct (StrictVersion.parse django_version) as [v|] eqn:Hparse.
    + rewrite (module_body_override _ _ _ _ v Hflag Hparse) in Hrun.
      injection Hrun as <-.
      rewrite (module_body_override _ _ _ _ v Hflag Hparse).
      eexists. split; [reflexivity|].
      destruct (path_for v); cbn; repeat split; auto;
        intros obj; unfold Substitution.set_registry;
        rewrite Nat.eqb_refl; destruct (obj =? site)%nat; reflexivity.
    + unfold Substitution.module_body in Hrun. rewrite Hflag, Hparse in Hrun.
      discriminate.
  - unfold Substitution.module_body in *. rewrite Hflag in *.
    injection Hrun as <-. exists p. auto.
Qed.

Lemma substitution_twice_witness :
  exists p' p'',
    Substitution.module_body Sample.override_on "1.8.3" 1%nat Sample.process = inr p'
    /\ Substitution.module_body Sample.override_on "1.8.3" 1%nat p' = inr p''
    /\ Substitution.django_contrib_admin_site p'' = 1%nat
    /\ Substitution.registry_of p'' 1%nat = [(Sample.User, mkModelAdmin "UserAdmin")].
Proof.
  eexists.
  destruct (substitution_twice Sample.override_on "1.8.3" 1%nat Sample.process _ eq_refl)
    as (p'' & Hrun & Hsite & _ & Hdicts & Hsites).
  exists p''. split; [reflexivity|]. split; [exact Hrun|].
  split; [rewrite Hsite; reflexivity|].
  unfold Substitution.registry_of. rewrite Hdicts, Hsites. reflexivity.
Defined.
